(** * Zest OpenAI tool server: the gateway of [openai-tool-server/main.py]

    The gateway is a FastAPI application that checks an optional bearer
    token, validates the JSON body of a route against a pydantic model and
    re-issues the call to the Zest agent proxy through one shared
    [httpx.AsyncClient].  The embedding below follows [main.py] function by
    function:

    - JSON values and Python dicts (insertion-ordered association lists);
    - Python exceptions as a result type, [try]/[except] as a handler;
    - an effect type [Await] that records every outbound HTTP call next to
      the result of the coroutine;
    - the module globals [PROXY_BASE_URL], [API_KEY] and [http_client];
    - the pydantic models with their defaults, [.dict()] and construction;
    - [lifespan], [verify_api_key], [proxy_request] and the route handlers;
    - the FastAPI dispatch: dependencies first, body validation next, the
      handler last, and the rendering of a raised [HTTPException].

    The agent proxy is an external process: it appears as the function the
    HTTP client uses to answer a call. *)

From Stdlib Require Import Ascii String ZArith List Bool Lia DecimalString.
Import ListNotations.
Open Scope string_scope.
Open Scope Z_scope.
Set Warnings "-register-all".

(** ** JSON values and Python dicts *)

(** A JSON value as [json.loads] gives it.  A float is kept as its literal:
    the gateway never computes with one. *)
Inductive Json : Type :=
| JNull
| JBool (b : bool)
| JInt (n : Z)
| JFloat (literal : string)
| JStr (s : string)
| JList (items : list Json)
| JObj (fields : list (string * Json)).

(** A Python [dict] with string keys, in insertion order. *)
Definition Dict : Type := list (string * Json).

(** [d.get(key)] *)
Fixpoint dict_get (key : string) (d : Dict) : option Json :=
  match d with
  | [] => None
  | (k, v) :: rest => if (k =? key)%string then Some v else dict_get key rest
  end.

Definition keys (d : Dict) : list string := map fst d.

Definition is_none (j : Json) : bool :=
  match j with JNull => true | _ => false end.

(** An [Optional[...]] field as a JSON value: [None] is [null]. *)
Definition opt_json {A : Type} (inj : A -> Json) (o : option A) : Json :=
  match o with Some a => inj a | None => JNull end.

(** ** The proxy side: httpx responses *)

(** What [response.json()] does: the decoded body, or the message of the
    decoding error it raises. *)
Inductive Decoded : Type :=
| Decodes (data : Json)
| DecodeError (message : string).

Record Response : Type := mkResponse {
  status_code : Z;
  json : Decoded
}.

(** [response.is_success] *)
Definition is_success (r : Response) : bool :=
  (200 <=? status_code r) && (status_code r <=? 299).

(** One outbound call of the gateway. *)
Record Outbound : Type := mkOutbound {
  out_method : string;
  out_url : string;
  out_json : option Json
}.

(** The end of an outbound call: a response with any status, or a transport
    exception (connection refused, timeout, ...) with its [str(e)]. *)
Inductive Sent : Type :=
| Responded (r : Response)
| TransportError (message : string).

(** [httpx.AsyncClient]: the network and the agent proxy behind it. *)
Record AsyncClient : Type := mkClient {
  send : Outbound -> Sent
}.

(** ** Python exceptions *)

Inductive Exn : Type :=
| HTTPException (status : Z) (detail : string)
| HTTPStatusError (response : Response) (message : string)
| Error (message : string).

Inductive Result (A : Type) : Type :=
| Return (a : A)
| Raise (e : Exn).
Arguments Return {A} a.
Arguments Raise {A} e.

(** [str(e)].  No handler of [main.py] that takes [str(e)] can receive an
    [HTTPException]: [proxy_request] raises none inside its [try], and the
    route handlers re-raise it in an earlier [except] clause. *)
Definition str (e : Exn) : string :=
  match e with
  | HTTPException _ detail => detail
  | HTTPStatusError _ message => message
  | Error message => message
  end.

(** ** Coroutines: a result and the outbound calls made on the way *)

Record Await (A : Type) : Type := mkAwait {
  calls : list Outbound;
  outcome : Result A
}.
Arguments mkAwait {A} calls outcome.
Arguments calls {A} a.
Arguments outcome {A} a.

Definition ret {A : Type} (a : A) : Await A := mkAwait [] (Return a).

Definition raise {A : Type} (e : Exn) : Await A := mkAwait [] (Raise e).

Definition lift {A : Type} (r : Result A) : Await A := mkAwait [] r.

Definition bind {A B : Type} (m : Await A) (k : A -> Await B) : Await B :=
  match outcome m with
  | Return a => mkAwait (calls m ++ calls (k a)) (outcome (k a))
  | Raise e => mkAwait (calls m) (Raise e)
  end.

(** [try: m except Exception as e: handler(e)] *)
Definition try_except {A : Type} (m : Await A) (handler : Exn -> Await A)
  : Await A :=
  match outcome m with
  | Return a => m
  | Raise e => mkAwait (calls m ++ calls (handler e)) (outcome (handler e))
  end.

Declare Scope await_scope.
Delimit Scope await_scope with await.
Notation "x <- m ;; k" := (bind m (fun x => k))
  (at level 61, m at next level, right associativity) : await_scope.
Notation "'try' m 'except' h" := (try_except m h)
  (at level 61, m at next level, h at next level) : await_scope.
Open Scope await_scope.

(** ** httpx calls *)

(** [await client.get(url)] *)
Definition get (client : AsyncClient) (url : string) : Await Response :=
  let call := mkOutbound "GET" url None in
  mkAwait [call]
    match send client call with
    | Responded r => Return r
    | TransportError message => Raise (Error message)
    end.

(** [await client.post(url, json=json_data)] *)
Definition post (client : AsyncClient) (url : string) (json_data : option Json)
  : Await Response :=
  let call := mkOutbound "POST" url json_data in
  mkAwait [call]
    match send client call with
    | Responded r => Return r
    | TransportError message => Raise (Error message)
    end.

(** [response.json()] *)
Definition response_json (r : Response) : Result Json :=
  match json r with
  | Decodes data => Return data
  | DecodeError message => Raise (Error message)
  end.

(** ** Module globals *)

Record Globals : Type := mkGlobals {
  PROXY_BASE_URL : string;
  API_KEY : string;
  http_client : option AsyncClient
}.

(** Truth value of a Python string: empty is false. *)
Definition truthy (s : string) : bool := negb (s =? "")%string.

(** ** Pydantic models

    Each model is a record with its fields in declaration order, its
    [.dict()] and the validation FastAPI runs on a request body (or that
    the constructor runs on the keyword arguments unpacked from a dict).  Validation here accepts a
    value of the declared JSON type as it is, takes the declared default for
    an absent key, accepts [null] for an [Optional] field and ignores keys
    the model does not declare.  Pydantic also converts some values of
    another type (the string ["3"] for an [int]); no statement below is
    about such a body. *)

Definition as_str (j : Json) : option string :=
  match j with JStr s => Some s | _ => None end.

Definition as_bool (j : Json) : option bool :=
  match j with JBool b => Some b | _ => None end.

Definition as_int (j : Json) : option Z :=
  match j with JInt n => Some n | _ => None end.

Definition as_dict (j : Json) : option Dict :=
  match j with JObj d => Some d | _ => None end.

(** [name: T = Field(...)] *)
Definition required {A : Type} (conv : Json -> option A) (key : string)
  (d : Dict) : option A :=
  match dict_get key d with
  | Some j => conv j
  | None => None
  end.

(** [name: T = Field(default)] *)
Definition defaulted {A : Type} (conv : Json -> option A) (default : A)
  (key : string) (d : Dict) : option A :=
  match dict_get key d with
  | Some j => conv j
  | None => Some default
  end.

(** [name: Optional[T] = Field(default)] *)
Definition optional {A : Type} (conv : Json -> option A) (default : option A)
  (key : string) (d : Dict) : option (option A) :=
  match dict_get key d with
  | Some JNull => Some None
  | Some j => option_map Some (conv j)
  | None => Some default
  end.

Definition and_then {A B : Type} (o : option A) (k : A -> option B)
  : option B :=
  match o with Some a => k a | None => None end.

Notation "x <-? o ;; k" := (and_then o (fun x => k))
  (at level 61, o at next level, right associativity).

Module ExploreCodeRequest.
Record t : Type := mk {
  query : string;
  generate_report : bool;
  config : option Dict
}.
Definition dict (r : t) : Dict :=
  [("query", JStr (query r));
   ("generate_report", JBool (generate_report r));
   ("config", opt_json JObj (config r))].
Definition validate (body : Json) : option t :=
  d <-? as_dict body ;;
  q <-? required as_str "query" d ;;
  g <-? defaulted as_bool false "generate_report" d ;;
  c <-? optional as_dict None "config" d ;;
  Some (mk q g c).
End ExploreCodeRequest.

Module ExploreCodeResponse.
Record t : Type := mk {
  success : bool;
  summary : string;
  report : option Dict;
  error : option string
}.
Definition dict (r : t) : Dict :=
  [("success", JBool (success r));
   ("summary", JStr (summary r));
   ("report", opt_json JObj (report r));
   ("error", opt_json JStr (error r))].
Definition validate (data : Json) : option t :=
  d <-? as_dict data ;;
  s <-? required as_bool "success" d ;;
  m <-? required as_str "summary" d ;;
  r <-? optional as_dict None "report" d ;;
  e <-? optional as_str None "error" d ;;
  Some (mk s m r e).
End ExploreCodeResponse.

Module ExecuteToolRequest.
Record t : Type := mk {
  tool : string;
  parameters : Dict
}.
Definition dict (r : t) : Dict :=
  [("tool", JStr (tool r)); ("parameters", JObj (parameters r))].
Definition validate (body : Json) : option t :=
  d <-? as_dict body ;;
  n <-? required as_str "tool" d ;;
  p <-? required as_dict "parameters" d ;;
  Some (mk n p).
End ExecuteToolRequest.

Module ExecuteToolResponse.
Record t : Type := mk {
  success : bool;
  content : string;
  error : option string
}.
Definition dict (r : t) : Dict :=
  [("success", JBool (success r));
   ("content", JStr (content r));
   ("error", opt_json JStr (error r))].
Definition validate (data : Json) : option t :=
  d <-? as_dict data ;;
  s <-? required as_bool "success" d ;;
  c <-? required as_str "content" d ;;
  e <-? optional as_str None "error" d ;;
  Some (mk s c e).
End ExecuteToolResponse.

Module SearchCodeRequest.
Record t : Type := mk {
  query : string;
  max_results : option Z
}.
Definition dict (r : t) : Dict :=
  [("query", JStr (query r)); ("max_results", opt_json JInt (max_results r))].
Definition validate (body : Json) : option t :=
  d <-? as_dict body ;;
  q <-? required as_str "query" d ;;
  m <-? optional as_int (Some 10) "max_results" d ;;
  Some (mk q m).
End SearchCodeRequest.

Module FindByNameRequest.
Record t : Type := mk {
  name : string;
  type : option string
}.
Definition dict (r : t) : Dict :=
  [("name", JStr (name r)); ("type", opt_json JStr (type r))].
Definition validate (body : Json) : option t :=
  d <-? as_dict body ;;
  n <-? required as_str "name" d ;;
  k <-? optional as_str (Some "any") "type" d ;;
  Some (mk n k).
End FindByNameRequest.

Module ReadFileRequest.
Record t : Type := mk {
  file_path : string
}.
Definition dict (r : t) : Dict := [("file_path", JStr (file_path r))].
Definition validate (body : Json) : option t :=
  d <-? as_dict body ;;
  f <-? required as_str "file_path" d ;;
  Some (mk f).
End ReadFileRequest.

Module FindRelationshipsRequest.
Record t : Type := mk {
  element_id : string;
  relation_type : option string
}.
Definition dict (r : t) : Dict :=
  [("element_id", JStr (element_id r));
   ("relation_type", opt_json JStr (relation_type r))].
Definition validate (body : Json) : option t :=
  d <-? as_dict body ;;
  e <-? required as_str "element_id" d ;;
  k <-? optional as_str None "relation_type" d ;;
  Some (mk e k).
End FindRelationshipsRequest.

Module FindUsagesRequest.
Record t : Type := mk {
  element_id : string
}.
Definition dict (r : t) : Dict := [("element_id", JStr (element_id r))].
Definition validate (body : Json) : option t :=
  d <-? as_dict body ;;
  e <-? required as_str "element_id" d ;;
  Some (mk e).
End FindUsagesRequest.

Module GetClassInfoRequest.
Record t : Type := mk {
  class_name : string
}.
Definition dict (r : t) : Dict := [("class_name", JStr (class_name r))].
Definition validate (body : Json) : option t :=
  d <-? as_dict body ;;
  c <-? required as_str "class_name" d ;;
  Some (mk c).
End GetClassInfoRequest.

Module AugmentQueryRequest.
Record t : Type := mk {
  query : string
}.
Definition dict (r : t) : Dict := [("query", JStr (query r))].
Definition validate (body : Json) : option t :=
  d <-? as_dict body ;;
  q <-? required as_str "query" d ;;
  Some (mk q).
End AugmentQueryRequest.

Module ConfigUpdateRequest.
Record t : Type := mk {
  max_tool_calls : option Z;
  max_rounds : option Z;
  include_tests : option bool;
  deep_exploration : option bool;
  timeout_seconds : option Z
}.
Definition dict (r : t) : Dict :=
  [("max_tool_calls", opt_json JInt (max_tool_calls r));
   ("max_rounds", opt_json JInt (max_rounds r));
   ("include_tests", opt_json JBool (include_tests r));
   ("deep_exploration", opt_json JBool (deep_exploration r));
   ("timeout_seconds", opt_json JInt (timeout_seconds r))].
(** [.dict(exclude_none=True)]: the fields whose value is [None] are left
    out. *)
Definition dict_exclude_none (r : t) : Dict :=
  filter (fun kv => negb (is_none (snd kv))) (dict r).
Definition validate (body : Json) : option t :=
  d <-? as_dict body ;;
  a <-? optional as_int None "max_tool_calls" d ;;
  b <-? optional as_int None "max_rounds" d ;;
  c <-? optional as_bool None "include_tests" d ;;
  e <-? optional as_bool None "deep_exploration" d ;;
  f <-? optional as_int None "timeout_seconds" d ;;
  Some (mk a b c e f).
End ConfigUpdateRequest.

(** ** Logging *)

Inductive Level : Type := INFO | WARNING.

(** The records [lifespan] writes at startup; each carries the values its
    format string interpolates. *)
Inductive LogText : Type :=
| Starting
| FoundProxyOnPort (port : Z)
| Project (project : option Json)
| NoProxyFound.

Definition LogRecord : Type := (Level * LogText)%type.

(** ** Small Python helpers *)

(** [range(lo, hi)] *)
Definition range (lo hi : Z) : list Z :=
  map (fun i => lo + Z.of_nat i) (seq 0 (Z.to_nat (hi - lo))).

(** [f"http://localhost:{port}"] *)
Definition localhost (port : Z) : string :=
  "http://localhost:" ++ NilZero.string_of_int (Z.to_int port).

Definition type_name (j : Json) : string :=
  match j with
  | JNull => "NoneType"
  | JBool _ => "bool"
  | JInt _ => "int"
  | JFloat _ => "float"
  | JStr _ => "str"
  | JList _ => "list"
  | JObj _ => "dict"
  end.

(** [data.get(key)] on a decoded body: only a dict has the method, and an
    absent key gives [None]. *)
Definition py_get (data : Json) (key : string) : Result (option Json) :=
  match data with
  | JObj d => Return (dict_get key d)
  | _ => Raise (Error ("'" ++ type_name data ++ "' object has no attribute 'get'"))
  end.

(** [value == text] for a value obtained with [.get] *)
Definition equals_str (value : option Json) (text : string) : bool :=
  match value with
  | Some (JStr s) => (s =? text)%string
  | _ => false
  end.

(** ** Bearer credentials (FastAPI's [HTTPBearer], [auto_error] left on)

    [security = HTTPBearer()] reads the [Authorization] header, splits it at
    the first space into a scheme and the credentials, and raises 403 when
    the header, the scheme or the credentials are missing or when the scheme
    is not [bearer] in any letter case. *)

Fixpoint partition_space (s : string) : string * string :=
  match s with
  | EmptyString => ("", "")
  | String c rest =>
      if Ascii.eqb c " "%char then ("", rest)
      else let (scheme, param) := partition_space rest in
           (String c scheme, param)
  end.

Definition lower_ascii (c : Ascii.ascii) : Ascii.ascii :=
  let n := Ascii.nat_of_ascii c in
  if ((65 <=? n) && (n <=? 90))%nat then Ascii.ascii_of_nat (n + 32) else c.

Fixpoint lower (s : string) : string :=
  match s with
  | EmptyString => EmptyString
  | String c rest => String (lower_ascii c) (lower rest)
  end.

Definition HTTP_403_FORBIDDEN : Z := 403.

Record HTTPAuthorizationCredentials : Type := mkCredentials {
  scheme : string;
  credentials : string
}.

Definition HTTPBearer (authorization : option string)
  : Result HTTPAuthorizationCredentials :=
  match authorization with
  | None => Raise (HTTPException HTTP_403_FORBIDDEN "Not authenticated")
  | Some header =>
      let (scheme, credentials) := partition_space header in
      if negb (truthy header && truthy scheme && truthy credentials) then
        Raise (HTTPException HTTP_403_FORBIDDEN "Not authenticated")
      else if negb (lower scheme =? "bearer")%string then
        Raise (HTTPException HTTP_403_FORBIDDEN
                 "Invalid authentication credentials")
      else Return (mkCredentials scheme credentials)
  end.

(** ** Requests and replies of the gateway *)

(** The routes of [main.py] that reach the agent proxy.  ([/openapi.json]
    only prints the schema of these routes; it declares no dependency and
    makes no outbound call.) *)
Inductive Route : Type :=
| GET_health
| POST_explore
| POST_execute_tool
| GET_tools
| POST_search
| POST_find_by_name
| POST_read_file
| POST_find_relationships
| POST_find_usages
| POST_class_info
| POST_augment
| GET_status
| GET_config
| POST_config.

Record Request : Type := mkRequest {
  route : Route;
  authorization : option string;
  body : option Json
}.

(** What the caller receives. *)
Inductive Reply : Type :=
| JSONResponse (status : Z) (content : Json)
| ValidationErrorResponse
| InternalServerError.

Record Served : Type := mkServed {
  forwarded : list Outbound;
  reply : Reply
}.

(** FastAPI's exception handling: an [HTTPException] becomes a JSON reply
    with its status and its detail; any other exception that leaves a
    handler is an unhandled fault (500). *)
Definition render (r : Result Json) : Reply :=
  match r with
  | Return content => JSONResponse 200 content
  | Raise (HTTPException status detail) =>
      JSONResponse status (JObj [("detail", JStr detail)])
  | Raise _ => InternalServerError
  end.

(** ** The route table and a client ([examples/direct_api_usage.py])

    What a client sends: a method, a path, the [Authorization] header of
    its session if it has one, and a JSON body if the call gives one. *)
Record ClientCall : Type := mkCall {
  call_method : string;
  call_path : string;
  call_authorization : option string;
  call_json : option Json
}.

(** The decorators of [main.py]: [@app.get("/health")],
    [@app.post("/explore")], ... *)
Definition routes : list (string * string * Route) :=
  [("GET", "/health", GET_health);
   ("POST", "/explore", POST_explore);
   ("POST", "/execute-tool", POST_execute_tool);
   ("GET", "/tools", GET_tools);
   ("POST", "/search", POST_search);
   ("POST", "/find-by-name", POST_find_by_name);
   ("POST", "/read-file", POST_read_file);
   ("POST", "/find-relationships", POST_find_relationships);
   ("POST", "/find-usages", POST_find_usages);
   ("POST", "/class-info", POST_class_info);
   ("POST", "/augment", POST_augment);
   ("GET", "/status", GET_status);
   ("GET", "/config", GET_config);
   ("POST", "/config", POST_config)].

(** The route a method and a path select, if any. *)
Definition route_of (method path : string) : option Route :=
  option_map snd
    (find (fun entry =>
             (fst (fst entry) =? method)%string &&
             (snd (fst entry) =? path)%string)
       routes).

(** The request the gateway sees for a client call to one of its routes. *)
Definition receive (c : ClientCall) : option Request :=
  option_map
    (fun r => mkRequest r (call_authorization c) (call_json c))
    (route_of (call_method c) (call_path c)).

Module ZestAPIClient.
(** [self]: the headers [__init__] gives the session, that is the
    [Authorization] header when an API key is given and not empty. *)
Record t : Type := mk {
  authorization_header : option string
}.

Definition init (api_key : option string) : t :=
  mk match api_key with
     | Some key => if truthy key then Some ("Bearer " ++ key) else None
     | None => None
     end.

(** [self.client.get(path)] and [self.client.post(path, json=payload)];
    each method below is the call it sends, and returns the decoded body
    of the reply. *)
Definition client_get (self : t) (path : string) : ClientCall :=
  mkCall "GET" path (authorization_header self) None.

Definition client_post (self : t) (path : string) (payload : Json)
  : ClientCall :=
  mkCall "POST" path (authorization_header self) (Some payload).

Definition health_check (self : t) : ClientCall := client_get self "/health".

(** [if config:] is false for [None] and for the empty dict. *)
Definition explore_code (self : t) (query : string) (generate_report : bool)
  (config : option Dict) : ClientCall :=
  let payload := [("query", JStr query);
                  ("generate_report", JBool generate_report)] in
  let payload :=
    match config with
    | Some (binding :: more) =>
        (payload ++ [("config", JObj (binding :: more))])%list
    | _ => payload
    end in
  client_post self "/explore" (JObj payload).

Definition search_code (self : t) (query : string) (max_results : Z)
  : ClientCall :=
  client_post self "/search"
    (JObj [("query", JStr query); ("max_results", JInt max_results)]).

Definition find_by_name (self : t) (name : string) (type : string)
  : ClientCall :=
  client_post self "/find-by-name"
    (JObj [("name", JStr name); ("type", JStr type)]).

Definition read_file (self : t) (file_path : string) : ClientCall :=
  client_post self "/read-file" (JObj [("file_path", JStr file_path)]).

(** [if relation_type:] is false for [None] and for the empty string. *)
Definition find_relationships (self : t) (element_id : string)
  (relation_type : option string) : ClientCall :=
  let payload := [("element_id", JStr element_id)] in
  let payload :=
    match relation_type with
    | Some kind =>
        if truthy kind
        then (payload ++ [("relation_type", JStr kind)])%list
        else payload
    | None => payload
    end in
  client_post self "/find-relationships" (JObj payload).

Definition find_usages (self : t) (element_id : string) : ClientCall :=
  client_post self "/find-usages" (JObj [("element_id", JStr element_id)]).

Definition get_class_info (self : t) (class_name : string) : ClientCall :=
  client_post self "/class-info" (JObj [("class_name", JStr class_name)]).

Definition list_tools (self : t) : ClientCall := client_get self "/tools".

Definition execute_tool (self : t) (tool : string) (parameters : Dict)
  : ClientCall :=
  client_post self "/execute-tool"
    (JObj [("tool", JStr tool); ("parameters", JObj parameters)]).

Definition get_status (self : t) : ClientCall := client_get self "/status".

Definition get_config (self : t) : ClientCall := client_get self "/config".

(** [update_config], its keyword arguments taken as a dict *)
Definition update_config (self : t) (kwargs : Dict) : ClientCall :=
  client_post self "/config" (JObj kwargs).
End ZestAPIClient.

(** The methods of [ZestAPIClient] with their arguments, to speak of every
    call a client can make. *)
Module Invoke.
Inductive t : Type :=
| health_check
| explore_code (query : string) (generate_report : bool) (config : option Dict)
| search_code (query : string) (max_results : Z)
| find_by_name (name : string) (type : string)
| read_file (file_path : string)
| find_relationships (element_id : string) (relation_type : option string)
| find_usages (element_id : string)
| get_class_info (class_name : string)
| list_tools
| execute_tool (tool : string) (parameters : Dict)
| get_status
| get_config
| update_config (kwargs : Dict).
End Invoke.

Definition perform (self : ZestAPIClient.t) (i : Invoke.t) : ClientCall :=
  match i with
  | Invoke.health_check => ZestAPIClient.health_check self
  | Invoke.explore_code query generate_report config =>
      ZestAPIClient.explore_code self query generate_report config
  | Invoke.search_code query max_results =>
      ZestAPIClient.search_code self query max_results
  | Invoke.find_by_name name type => ZestAPIClient.find_by_name self name type
  | Invoke.read_file file_path => ZestAPIClient.read_file self file_path
  | Invoke.find_relationships element_id relation_type =>
      ZestAPIClient.find_relationships self element_id relation_type
  | Invoke.find_usages element_id => ZestAPIClient.find_usages self element_id
  | Invoke.get_class_info class_name =>
      ZestAPIClient.get_class_info self class_name
  | Invoke.list_tools => ZestAPIClient.list_tools self
  | Invoke.execute_tool tool parameters =>
      ZestAPIClient.execute_tool self tool parameters
  | Invoke.get_status => ZestAPIClient.get_status self
  | Invoke.get_config => ZestAPIClient.get_config self
  | Invoke.update_config kwargs => ZestAPIClient.update_config self kwargs
  end.

(** ** The gateway *)

Section Gateway.

(** Texts composed by the libraries, kept abstract: the [str(e)] of the
    [HTTPStatusError] that [raise_for_status] builds for a response to a
    URL, and the [str(e)] of the error a model constructor raises for the
    data it cannot be built from. *)
Variable status_error_text : string -> Response -> string.
Variable construct_error_text : string -> Json -> string.

(** [response.raise_for_status()] for the response to [url] *)
Definition raise_for_status (url : string) (r : Response) : Result unit :=
  if is_success r then Return tt
  else Raise (HTTPStatusError r (status_error_text url r)).

(** [Model(...)] called with the keyword arguments of [data]. *)
Definition construct {A : Type} (model : string)
  (validate : Json -> option A) (data : Json) : Result A :=
  match validate data with
  | Some a => Return a
  | None => Raise (Error (construct_error_text model data))
  end.

(** *** [lifespan]: startup *)

Record Startup : Type := mkStartup {
  base_url : string;
  proxy_found : bool;
  probes : list Outbound;
  log : list LogRecord
}.

(** The body of the [try] of one iteration: the decoded health payload
    when the signature matches ([data] is a dict there, its [.get] has
    answered). *)
Definition try_port (client : AsyncClient) (port : Z) : Await (option Dict) :=
  response <- get client (localhost port ++ "/health") ;;
  if status_code response =? 200 then
    data <- lift (response_json response) ;;
    service <- lift (py_get data "service") ;;
    if equals_str service "agent-proxy" then ret (as_dict data)
    else ret None
  else ret None.

(** [for port in range(8765, 8776): ...] *)
Fixpoint for_port (client : AsyncClient) (ports : list Z) (st : Startup)
  : Startup :=
  match ports with
  | [] => st
  | port :: rest =>
      let attempt := try_port client port in
      let st := mkStartup (base_url st) (proxy_found st)
                  (probes st ++ calls attempt) (log st) in
      match outcome attempt with
      | Return (Some data) =>
          (* found: set the base URL, log, break *)
          mkStartup (localhost port) true (probes st)
            (log st ++ [(INFO, FoundProxyOnPort port);
                        (INFO, Project (dict_get "project" data))])
      | Return None => for_port client rest st
      | Raise _ => for_port client rest st   (* except Exception: continue *)
      end
  end.

(** The part of [lifespan] before [yield], run with the client it creates:
    the globals it leaves, the probes it sent and its log. *)
Definition lifespan (client : AsyncClient) (g : Globals)
  : Globals * list Outbound * list LogRecord :=
  let st := for_port client (range 8765 8776)
              (mkStartup (PROXY_BASE_URL g) false [] [(INFO, Starting)]) in
  let log := if negb (proxy_found st)
             then (log st ++ [(WARNING, NoProxyFound)])%list
             else log st in
  (mkGlobals (base_url st) (API_KEY g) (Some client), probes st, log).

(** *** The running server *)

Variable g : Globals.

(** [verify_api_key] *)
Definition verify_api_key (c : HTTPAuthorizationCredentials) : Result string :=
  if truthy (API_KEY g) && negb (credentials c =? API_KEY g)%string then
    Raise (HTTPException 401 "Invalid API key")
  else Return (credentials c).

(** [Depends(verify_api_key)], with its own [Security(security)] solved
    first. *)
Definition Depends_verify_api_key (req : Request) : Result string :=
  match HTTPBearer (authorization req) with
  | Return c => verify_api_key c
  | Raise e => Raise e
  end.

(** [proxy_request] *)
Definition proxy_request (endpoint : string) (method : string)
  (json_data : option Json) : Await Json :=
  match http_client g with
  | None => raise (HTTPException 500 "HTTP client not initialized")
  | Some client =>
      let url := PROXY_BASE_URL g ++ endpoint in
      try (
        response <-
          (if (method =? "GET")%string then get client url
           else if (method =? "POST")%string then post client url json_data
           else raise (Error ("Unsupported method: " ++ method))) ;;
        _ <- lift (raise_for_status url response) ;;
        lift (response_json response))
      except (fun e =>
        match e with
        | HTTPStatusError r _ => raise (HTTPException (status_code r) (str e))
        | _ => raise (HTTPException 500 ("Proxy request failed: " ++ str e))
        end)
  end.

(** [health_check] *)
Definition health_check : Await Json :=
  try (
    proxy_health <- proxy_request "/health" "GET" None ;;
    ret (JObj [("status", JStr "healthy");
               ("proxy_connected", JBool true);
               ("proxy_info", proxy_health)]))
  except (fun _ =>
    ret (JObj [("status", JStr "healthy");
               ("proxy_connected", JBool false);
               ("proxy_info", JNull)])).

(** [explore_code] *)
Definition explore_code (request : ExploreCodeRequest.t) (api_key : string)
  : Await ExploreCodeResponse.t :=
  try (
    result <- proxy_request "/explore" "POST"
                (Some (JObj (ExploreCodeRequest.dict request))) ;;
    lift (construct "ExploreCodeResponse" ExploreCodeResponse.validate result))
  except (fun e =>
    match e with
    | HTTPException _ _ => raise e
    | _ => ret (ExploreCodeResponse.mk false "" None (Some (str e)))
    end).

(** [execute_tool] *)
Definition execute_tool (request : ExecuteToolRequest.t) (api_key : string)
  : Await ExecuteToolResponse.t :=
  try (
    result <- proxy_request "/execute-tool" "POST"
                (Some (JObj (ExecuteToolRequest.dict request))) ;;
    lift (construct "ExecuteToolResponse" ExecuteToolResponse.validate result))
  except (fun e =>
    match e with
    | HTTPException _ _ => raise e
    | _ => ret (ExecuteToolResponse.mk false "" (Some (str e)))
    end).

(** [list_tools] *)
Definition list_tools (api_key : string) : Await Json :=
  proxy_request "/tools" "GET" None.

(** The convenience endpoints *)

Definition search_code (request : SearchCodeRequest.t) (api_key : string)
  : Await ExecuteToolResponse.t :=
  execute_tool
    (ExecuteToolRequest.mk "search_code" (SearchCodeRequest.dict request))
    api_key.

Definition find_by_name (request : FindByNameRequest.t) (api_key : string)
  : Await ExecuteToolResponse.t :=
  execute_tool
    (ExecuteToolRequest.mk "find_by_name" (FindByNameRequest.dict request))
    api_key.

Definition read_file (request : ReadFileRequest.t) (api_key : string)
  : Await ExecuteToolResponse.t :=
  execute_tool
    (ExecuteToolRequest.mk "read_file" (ReadFileRequest.dict request))
    api_key.

Definition find_relationships (request : FindRelationshipsRequest.t)
  (api_key : string) : Await ExecuteToolResponse.t :=
  execute_tool
    (ExecuteToolRequest.mk "find_relationships"
       (FindRelationshipsRequest.dict request))
    api_key.

Definition find_usages (request : FindUsagesRequest.t) (api_key : string)
  : Await ExecuteToolResponse.t :=
  execute_tool
    (ExecuteToolRequest.mk "find_usages" (FindUsagesRequest.dict request))
    api_key.

Definition get_class_info (request : GetClassInfoRequest.t) (api_key : string)
  : Await ExecuteToolResponse.t :=
  execute_tool
    (ExecuteToolRequest.mk "get_class_info" (GetClassInfoRequest.dict request))
    api_key.

(** [augment_query] *)
Definition augment_query (request : AugmentQueryRequest.t) (api_key : string)
  : Await Json :=
  proxy_request "/augment" "POST"
    (Some (JObj (AugmentQueryRequest.dict request))).

(** [get_status] *)
Definition get_status (api_key : string) : Await Json :=
  proxy_request "/status" "GET" None.

(** [get_config] *)
Definition get_config (api_key : string) : Await Json :=
  proxy_request "/config" "GET" None.

(** [update_config] *)
Definition update_config (request : ConfigUpdateRequest.t) (api_key : string)
  : Await Json :=
  proxy_request "/config" "POST"
    (Some (JObj (ConfigUpdateRequest.dict_exclude_none request))).

(** *** FastAPI dispatch *)

(** The JSON a handler's return value is sent as. *)
Definition encoded {A : Type} (dict : A -> Dict) (m : Await A) : Await Json :=
  a <- m ;; ret (JObj (dict a)).

Definition respond (m : Await Json) : Served :=
  mkServed (calls m) (render (outcome m)).

(** A route declared with [api_key: str = Depends(verify_api_key)] and no
    body. *)
Definition secured (req : Request) (handler : string -> Await Json) : Served :=
  match Depends_verify_api_key req with
  | Raise e => mkServed [] (render (Raise e))
  | Return api_key => respond (handler api_key)
  end.

(** A route declared with a body model and the dependency: the dependency
    is solved first, the body is validated next, the handler runs last. *)
Definition secured_with_body {A : Type} (req : Request)
  (validate : Json -> option A) (handler : A -> string -> Await Json)
  : Served :=
  match Depends_verify_api_key req with
  | Raise e => mkServed [] (render (Raise e))
  | Return api_key =>
      match and_then (body req) validate with
      | None => mkServed [] ValidationErrorResponse
      | Some request => respond (handler request api_key)
      end
  end.

Definition tool_reply (m : Await ExecuteToolResponse.t) : Await Json :=
  encoded ExecuteToolResponse.dict m.

Definition app (req : Request) : Served :=
  match route req with
  | GET_health => respond health_check
  | POST_explore =>
      secured_with_body req ExploreCodeRequest.validate
        (fun r k => encoded ExploreCodeResponse.dict (explore_code r k))
  | POST_execute_tool =>
      secured_with_body req ExecuteToolRequest.validate
        (fun r k => tool_reply (execute_tool r k))
  | GET_tools => secured req list_tools
  | POST_search =>
      secured_with_body req SearchCodeRequest.validate
        (fun r k => tool_reply (search_code r k))
  | POST_find_by_name =>
      secured_with_body req FindByNameRequest.validate
        (fun r k => tool_reply (find_by_name r k))
  | POST_read_file =>
      secured_with_body req ReadFileRequest.validate
        (fun r k => tool_reply (read_file r k))
  | POST_find_relationships =>
      secured_with_body req FindRelationshipsRequest.validate
        (fun r k => tool_reply (find_relationships r k))
  | POST_find_usages =>
      secured_with_body req FindUsagesRequest.validate
        (fun r k => tool_reply (find_usages r k))
  | POST_class_info =>
      secured_with_body req GetClassInfoRequest.validate
        (fun r k => tool_reply (get_class_info r k))
  | POST_augment => secured_with_body req AugmentQueryRequest.validate augment_query
  | GET_status => secured req get_status
  | GET_config => secured req get_config
  | POST_config => secured_with_body req ConfigUpdateRequest.validate update_config
  end.

(** * Vocabulary of the properties *)

(** ** What one forwarded call comes to

    [relay] says in one match what [proxy_request] does with the end of
    its outbound call. *)
Definition relay (client : AsyncClient) (call : Outbound) : Result Json :=
  match send client call with
  | Responded r =>
      if is_success r then
        match json r with
        | Decodes data => Return data
        | DecodeError message =>
            Raise (HTTPException 500 ("Proxy request failed: " ++ message))
        end
      else
        Raise (HTTPException (status_code r)
                 (status_error_text (out_url call) r))
  | TransportError message =>
      Raise (HTTPException 500 ("Proxy request failed: " ++ message))
  end.

(** The backend failures of a forwarded call, with the status and the
    text they are reported with: a response outside 2xx, a transport
    exception, a 2xx body that does not decode. *)
Inductive Fails (client : AsyncClient) (call : Outbound)
  : Z -> string -> Prop :=
| fails_status r :
    send client call = Responded r ->
    is_success r = false ->
    Fails client call (status_code r) (status_error_text (out_url call) r)
| fails_transport message :
    send client call = TransportError message ->
    Fails client call 500 ("Proxy request failed: " ++ message)
| fails_decode r message :
    send client call = Responded r ->
    is_success r = true ->
    json r = DecodeError message ->
    Fails client call 500 ("Proxy request failed: " ++ message).

(** The backend answers a call with a 2xx status and a JSON payload. *)
Definition Succeeds (client : AsyncClient) (call : Outbound) (payload : Json)
  : Prop :=
  exists r, send client call = Responded r /\ is_success r = true /\
            json r = Decodes payload.

(** The credentials of a request pass the dependency of the route. *)
Definition authenticated (req : Request) : Prop :=
  exists api_key, Depends_verify_api_key req = Return api_key.

(** The bearer token a request presents, if it presents one. *)
Definition bearer_token (req : Request) : option string :=
  match HTTPBearer (authorization req) with
  | Return c => Some (credentials c)
  | Raise _ => None
  end.

(** The body of a request passes the validation of its route. *)
Definition well_formed (req : Request) : bool :=
  let valid {A : Type} (validate : Json -> option A) :=
    match and_then (body req) validate with Some _ => true | None => false end
  in
  match route req with
  | POST_explore => valid ExploreCodeRequest.validate
  | POST_execute_tool => valid ExecuteToolRequest.validate
  | POST_search => valid SearchCodeRequest.validate
  | POST_find_by_name => valid FindByNameRequest.validate
  | POST_read_file => valid ReadFileRequest.validate
  | POST_find_relationships => valid FindRelationshipsRequest.validate
  | POST_find_usages => valid FindUsagesRequest.validate
  | POST_class_info => valid GetClassInfoRequest.validate
  | POST_augment => valid AugmentQueryRequest.validate
  | POST_config => valid ConfigUpdateRequest.validate
  | GET_health | GET_tools | GET_status | GET_config => true
  end.

(** The routes that declare the [verify_api_key] dependency. *)
Definition protected (r : Route) : bool :=
  match r with GET_health => false | _ => true end.

(** ** [/health] *)

Definition health_call : Outbound :=
  mkOutbound "GET" (PROXY_BASE_URL g ++ "/health") None.

Definition healthy (proxy_connected : bool) (proxy_info : Json) : Json :=
  JObj [("status", JStr "healthy");
        ("proxy_connected", JBool proxy_connected);
        ("proxy_info", proxy_info)].

(** ** The generic routes [/explore] and [/execute-tool] *)

Definition execute_tool_call (request : ExecuteToolRequest.t) : Outbound :=
  mkOutbound "POST" (PROXY_BASE_URL g ++ "/execute-tool")
    (Some (JObj (ExecuteToolRequest.dict request))).

Definition explore_call (request : ExploreCodeRequest.t) : Outbound :=
  mkOutbound "POST" (PROXY_BASE_URL g ++ "/explore")
    (Some (JObj (ExploreCodeRequest.dict request))).

(** ** The routes without a response model *)

Definition passthrough (r : Route) : bool :=
  match r with
  | GET_tools | GET_status | GET_config | POST_config | POST_augment => true
  | _ => false
  end.

(** ** The convenience routes *)

(** The tool each convenience route stands for. *)
Definition convenience_tool (r : Route) : option string :=
  match r with
  | POST_search => Some "search_code"
  | POST_find_by_name => Some "find_by_name"
  | POST_read_file => Some "read_file"
  | POST_find_relationships => Some "find_relationships"
  | POST_find_usages => Some "find_usages"
  | POST_class_info => Some "get_class_info"
  | _ => None
  end.

(** The fields of the validated request of a convenience route, as a
    dict. *)
Definition request_fields (req : Request) : option Dict :=
  match route req with
  | POST_search =>
      option_map SearchCodeRequest.dict
        (and_then (body req) SearchCodeRequest.validate)
  | POST_find_by_name =>
      option_map FindByNameRequest.dict
        (and_then (body req) FindByNameRequest.validate)
  | POST_read_file =>
      option_map ReadFileRequest.dict
        (and_then (body req) ReadFileRequest.validate)
  | POST_find_relationships =>
      option_map FindRelationshipsRequest.dict
        (and_then (body req) FindRelationshipsRequest.validate)
  | POST_find_usages =>
      option_map FindUsagesRequest.dict
        (and_then (body req) FindUsagesRequest.validate)
  | POST_class_info =>
      option_map GetClassInfoRequest.dict
        (and_then (body req) GetClassInfoRequest.validate)
  | _ => None
  end.

(** The request to the generic route that names a tool and gives it a
    parameter map, with the credentials of [req]. *)
Definition execute_tool_request (req : Request) (tool : string)
  (parameters : Dict) : Request :=
  mkRequest POST_execute_tool (authorization req)
    (Some (JObj [("tool", JStr tool); ("parameters", JObj parameters)])).

(** ** [POST /config] *)

Definition config_fields : list string :=
  ["max_tool_calls"; "max_rounds"; "include_tests"; "deep_exploration";
   "timeout_seconds"].

Definition or_null (o : option Json) : Json :=
  match o with Some value => value | None => JNull end.

(** ** Startup *)

Definition probe_call (port : Z) : Outbound :=
  mkOutbound "GET" (localhost port ++ "/health") None.

(** The health probe of a port comes back with status 200 and a JSON
    object whose ["service"] is ["agent-proxy"]. *)
Definition signature_matches (client : AsyncClient) (port : Z) : bool :=
  match send client (probe_call port) with
  | Responded r =>
      (status_code r =? 200) &&
      match json r with
      | Decodes (JObj data) =>
          match dict_get "service" data with
          | Some (JStr service) => (service =? "agent-proxy")%string
          | _ => false
          end
      | _ => false
      end
  | TransportError _ => false
  end.

Definition no_match (client : AsyncClient) (port : Z) : Prop :=
  signature_matches client port = false.

(** ** Sample inputs *)

Definition sample_status_text : string -> Response -> string :=
  fun url _ => "Server error for url '" ++ url ++ "'".

Definition sample_construct_text : string -> Json -> string :=
  fun model _ => "validation error for " ++ model.

(** A backend that gives the same answer to every call. *)
Definition answering (r : Response) : AsyncClient :=
  mkClient (fun _ => Responded r).

(** No backend is listening. *)
Definition unreachable : AsyncClient :=
  mkClient (fun _ => TransportError "All connection attempts failed").

(** An agent proxy that listens on one port only. *)
Definition proxy_on (port : Z) : AsyncClient :=
  mkClient (fun call =>
    if (out_url call =? localhost port ++ "/health")%string then
      Responded (mkResponse 200
        (Decodes (JObj [("service", JStr "agent-proxy");
                        ("project", JStr "zest")])))
    else TransportError "All connection attempts failed").

Definition server (key : string) (client : AsyncClient) : Globals :=
  mkGlobals "http://localhost:8765" key (Some client).

Definition ok_payload : Json :=
  JObj [("success", JBool true); ("content", JStr "ok")].

Definition read_file_body : Json :=
  JObj [("tool", JStr "read_file");
        ("parameters", JObj [("file_path", JStr "Main.java")])].

(** ** Conclusions the specification words more strongly than the code *)

(** A payload with [success = false] and a non-empty error message. *)
Definition error_payload (r : Reply) : Prop :=
  exists status d message,
    r = JSONResponse status (JObj d) /\
    dict_get "success" d = Some (JBool false) /\
    dict_get "error" d = Some (JStr message) /\
    message <> "".

(** The request was refused and nothing was forwarded. *)
Definition rejected_unforwarded (s : Served) : Prop :=
  forwarded s = [] /\
  exists status detail,
    reply s = JSONResponse status (JObj [("detail", JStr detail)]) /\
    (status = 401 \/ status = 403).

(** ** More vocabulary: calls, bodies, tokens *)

(** A coroutine of the gateway is tame when it makes at most one outbound
    call, to a URL under [PROXY_BASE_URL], and lets no exception out but
    an [HTTPException]. *)
Definition tame {A : Type} (m : Await A) : Prop :=
  (calls m = [] \/
   exists call endpoint,
     calls m = [call] /\ out_url call = PROXY_BASE_URL g ++ endpoint) /\
  forall e, outcome m = Raise e ->
            exists status detail, e = HTTPException status detail.

(** The routes declared with a body model. *)
Definition takes_body (r : Route) : bool :=
  match r with
  | GET_health | GET_tools | GET_status | GET_config => false
  | _ => true
  end.

(** The fields a route's body model declares without a default. *)
Definition required_fields (r : Route) : list string :=
  match r with
  | POST_explore => ["query"]
  | POST_execute_tool => ["tool"; "parameters"]
  | POST_search => ["query"]
  | POST_find_by_name => ["name"]
  | POST_read_file => ["file_path"]
  | POST_find_relationships => ["element_id"]
  | POST_find_usages => ["element_id"]
  | POST_class_info => ["class_name"]
  | POST_augment => ["query"]
  | _ => []
  end.

(** The binding of [key] in a body when it gives the key a value other
    than [null]. *)
Definition set_in (d : Dict) (key : string) : Dict :=
  match dict_get key d with
  | Some value => if is_none value then [] else [(key, value)]
  | None => []
  end.

(** The header the clients of the gateway build for an API key
    ([test_server.py]: [f"Bearer {api_key}"]). *)
Definition bearer_header (api_key : string) : string := "Bearer " ++ api_key.

(** The globals startup leaves. *)
Definition started (client : AsyncClient) : Globals :=
  fst (fst (lifespan client g)).

(** What every reply of the gateway has in common: at most one call, under
    the base URL, and no unhandled fault. *)
Definition well_served (s : Served) : Prop :=
  (forwarded s = [] \/
   exists call endpoint,
     forwarded s = [call] /\ out_url call = PROXY_BASE_URL g ++ endpoint) /\
  reply s <> InternalServerError.

(** The [ExecuteToolRequest] a route hands to [execute_tool]: the validated
    body on [/execute-tool], the route's tool with the dict of the
    validated body on a convenience route. *)
Definition tool_request (req : Request) : option ExecuteToolRequest.t :=
  match route req with
  | POST_execute_tool => and_then (body req) ExecuteToolRequest.validate
  | r =>
      match convenience_tool r, request_fields req with
      | Some tool, Some fields => Some (ExecuteToolRequest.mk tool fields)
      | _, _ => None
      end
  end.

(** ** The client in front of the gateway *)

(** Keyword arguments [update_config] can send: those the gateway's model
    accepts. *)
Definition acceptable (i : Invoke.t) : Prop :=
  match i with
  | Invoke.update_config kwargs =>
      ConfigUpdateRequest.validate (JObj kwargs) <> None
  | _ => True
  end.

Definition tool_call (tool : string) (parameters : Dict) : Outbound :=
  mkOutbound "POST" (PROXY_BASE_URL g ++ "/execute-tool")
    (Some (JObj [("tool", JStr tool); ("parameters", JObj parameters)])).

(** The call the backend receives for each method of the client. *)
Definition backend_call (i : Invoke.t) : Outbound :=
  match i with
  | Invoke.health_check =>
      mkOutbound "GET" (PROXY_BASE_URL g ++ "/health") None
  | Invoke.explore_code query generate_report config =>
      mkOutbound "POST" (PROXY_BASE_URL g ++ "/explore")
        (Some (JObj [("query", JStr query);
                     ("generate_report", JBool generate_report);
                     ("config",
                      match config with
                      | Some (binding :: more) => JObj (binding :: more)
                      | _ => JNull
                      end)]))
  | Invoke.search_code query max_results =>
      tool_call "search_code"
        [("query", JStr query); ("max_results", JInt max_results)]
  | Invoke.find_by_name name type =>
      tool_call "find_by_name" [("name", JStr name); ("type", JStr type)]
  | Invoke.read_file file_path =>
      tool_call "read_file" [("file_path", JStr file_path)]
  | Invoke.find_relationships element_id relation_type =>
      tool_call "find_relationships"
        [("element_id", JStr element_id);
         ("relation_type",
          match relation_type with
          | Some kind => if truthy kind then JStr kind else JNull
          | None => JNull
          end)]
  | Invoke.find_usages element_id =>
      tool_call "find_usages" [("element_id", JStr element_id)]
  | Invoke.get_class_info class_name =>
      tool_call "get_class_info" [("class_name", JStr class_name)]
  | Invoke.list_tools => mkOutbound "GET" (PROXY_BASE_URL g ++ "/tools") None
  | Invoke.execute_tool tool parameters => tool_call tool parameters
  | Invoke.get_status => mkOutbound "GET" (PROXY_BASE_URL g ++ "/status") None
  | Invoke.get_config => mkOutbound "GET" (PROXY_BASE_URL g ++ "/config") None
  | Invoke.update_config kwargs =>
      mkOutbound "POST" (PROXY_BASE_URL g ++ "/config")
        (Some (JObj (flat_map (set_in kwargs) config_fields)))
  end.

(** * Properties *)

(** ** [proxy_request] *)

Lemma proxy_request_GET client endpoint json_data :
  http_client g = Some client ->
  proxy_request endpoint "GET" json_data =
  let call := mkOutbound "GET" (PROXY_BASE_URL g ++ endpoint) None in
  mkAwait [call] (relay client call).
Proof.
  intros Hc. unfold proxy_request, relay. rewrite Hc. cbn.
  unfold try_except, bind, get, raise_for_status, response_json. cbn.
  destruct (send client _) as [r | m]; cbn; [| reflexivity].
  destruct (is_success r); cbn; [| reflexivity].
  destruct (json r); reflexivity.
Qed.

Lemma proxy_request_POST client endpoint json_data :
  http_client g = Some client ->
  proxy_request endpoint "POST" json_data =
  let call := mkOutbound "POST" (PROXY_BASE_URL g ++ endpoint) json_data in
  mkAwait [call] (relay client call).
Proof.
  intros Hc. unfold proxy_request, relay. rewrite Hc. cbn.
  unfold try_except, bind, post, raise_for_status, response_json. cbn.
  destruct (send client _) as [r | m]; cbn; [| reflexivity].
  destruct (is_success r); cbn; [| reflexivity].
  destruct (json r); reflexivity.
Qed.

Lemma relay_fails client call status detail :
  Fails client call status detail ->
  relay client call = Raise (HTTPException status detail).
Proof.
  intros [r Hs Hr | m Hs | r m Hs Hr Hj]; unfold relay; rewrite Hs.
  - rewrite Hr. reflexivity.
  - reflexivity.
  - rewrite Hr, Hj. reflexivity.
Qed.

Lemma relay_succeeds client call payload :
  Succeeds client call payload -> relay client call = Return payload.
Proof.
  intros (r & Hs & Hr & Hj). unfold relay. rewrite Hs, Hr, Hj. reflexivity.
Qed.

(** [proxy_request] lets no exception out but an [HTTPException]. *)
Lemma relay_raises client call e :
  relay client call = Raise e -> exists status detail, e = HTTPException status detail.
Proof.
  unfold relay. destruct (send client call) as [r | m].
  - destruct (is_success r).
    + destruct (json r); intros H; inversion H; eauto.
    + intros H; inversion H; eauto.
  - intros H; inversion H; eauto.
Qed.

(** ** Authentication *)

Lemma HTTPBearer_raises authorization e :
  HTTPBearer authorization = Raise e ->
  exists detail, e = HTTPException HTTP_403_FORBIDDEN detail.
Proof.
  unfold HTTPBearer. destruct authorization as [header |].
  - destruct (partition_space header) as [sch cred].
    destruct (negb _).
    + intros H; inversion H; eauto.
    + destruct (negb _); intros H; inversion H; eauto.
  - intros H; inversion H; eauto.
Qed.

(** A protected route whose dependency raises makes no outbound call and
    replies with the rendering of the exception. *)
Lemma dependency_raises req e :
  protected (route req) = true ->
  Depends_verify_api_key req = Raise e ->
  app req = mkServed [] (render (Raise e)).
Proof.
  intros Hp He. unfold app, secured, secured_with_body.
  destruct (route req); try discriminate Hp; rewrite He; reflexivity.
Qed.

Lemma wrong_token_raises req :
  truthy (API_KEY g) = true ->
  bearer_token req <> Some (API_KEY g) ->
  exists status detail,
    Depends_verify_api_key req = Raise (HTTPException status detail) /\
    (status = 401 \/ status = 403).
Proof.
  intros Hk Ht. unfold Depends_verify_api_key, bearer_token in *.
  destruct (HTTPBearer (authorization req)) as [c | e] eqn:Hb.
  - unfold verify_api_key. rewrite Hk.
    destruct (String.eqb_spec (credentials c) (API_KEY g)) as [Heq | Hne].
    + exfalso. apply Ht. now rewrite Heq.
    + cbn. exists 401, "Invalid API key". auto.
  - destruct (HTTPBearer_raises _ _ Hb) as [detail ->].
    exists HTTP_403_FORBIDDEN, detail. auto.
Qed.

(** C2.  A request that carries no [Authorization] header is refused by
    every route that declares the dependency, whatever [API_KEY] is -- the
    empty key included: [HTTPBearer] raises 403 before [verify_api_key]
    looks at the key, and nothing is forwarded. *)
Theorem missing_header_rejected req :
  protected (route req) = true ->
  authorization req = None ->
  app req =
  mkServed [] (JSONResponse 403 (JObj [("detail", JStr "Not authenticated")])).
Proof.
  intros Hp Ha.
  apply (dependency_raises req
           (HTTPException HTTP_403_FORBIDDEN "Not authenticated") Hp).
  unfold Depends_verify_api_key. rewrite Ha. reflexivity.
Qed.

(** C3, as amended.  With a key configured, a request to a route that
    declares the [verify_api_key] dependency (every route but [/health])
    whose bearer token is missing or differs from the key is answered 401
    or 403 with a detail, and no call is forwarded to the backend. *)
Theorem wrong_token_rejected_before_forwarding req :
  truthy (API_KEY g) = true ->
  protected (route req) = true ->
  bearer_token req <> Some (API_KEY g) ->
  rejected_unforwarded (app req).
Proof.
  intros Hk Hp Ht. unfold rejected_unforwarded.
  destruct (wrong_token_raises req Hk Ht) as (status & detail & He & Hs).
  rewrite (dependency_raises req _ Hp He). cbn. eauto.
Qed.

(** ** [/health] *)

Lemma health_check_relay client :
  http_client g = Some client ->
  health_check =
  mkAwait [health_call]
    (Return match relay client health_call with
            | Return proxy_health => healthy true proxy_health
            | Raise _ => healthy false JNull
            end).
Proof.
  intros Hc. unfold health_check.
  rewrite (proxy_request_GET client "/health" None Hc). cbn.
  fold health_call. unfold try_except, bind. cbn.
  destruct (relay client health_call); reflexivity.
Qed.

(** C8.  [GET /health] declares no dependency: a request without
    credentials, which the dependency of any other route refuses, runs
    [health_check] and has the health probe sent to the backend -- for
    every [API_KEY], a configured one included. *)
Theorem health_skips_authentication client request_body :
  http_client g = Some client ->
  let req := mkRequest GET_health None request_body in
  Depends_verify_api_key req =
    Raise (HTTPException 403 "Not authenticated") /\
  app req = respond health_check /\
  forwarded (app req) = [health_call].
Proof.
  intros Hc req. repeat split.
  unfold app, respond. cbn. rewrite (health_check_relay client Hc). reflexivity.
Qed.

(** C5.  [GET /health] answers 200 with status "healthy" in every case:
    with [proxy_connected] false and no proxy info when the backend cannot
    be reached (or fails in any other way), with [proxy_connected] true
    and the backend's health payload when the probe succeeds. *)
Theorem health_degraded_or_connected client req :
  route req = GET_health ->
  http_client g = Some client ->
  (forall message,
      send client health_call = TransportError message ->
      app req = mkServed [health_call] (JSONResponse 200 (healthy false JNull)))
  /\
  (forall status detail,
      Fails client health_call status detail ->
      app req = mkServed [health_call] (JSONResponse 200 (healthy false JNull)))
  /\
  (forall payload,
      Succeeds client health_call payload ->
      app req = mkServed [health_call] (JSONResponse 200 (healthy true payload))).
Proof.
  intros Hr Hc.
  assert (Happ : app req = respond health_check)
    by (unfold app; rewrite Hr; reflexivity).
  rewrite Happ, (health_check_relay client Hc). unfold respond. cbn.
  assert (Hfail : forall status detail,
             Fails client health_call status detail ->
             mkServed [health_call]
               (JSONResponse 200
                  match relay client health_call with
                  | Return proxy_health => healthy true proxy_health
                  | Raise _ => healthy false JNull
                  end) =
             mkServed [health_call] (JSONResponse 200 (healthy false JNull))).
  { intros status detail Hf. rewrite (relay_fails _ _ _ _ Hf). reflexivity. }
  split; [| split].
  - intros message Hs. eapply Hfail. apply fails_transport. exact Hs.
  - exact Hfail.
  - intros payload Hs. rewrite (relay_succeeds _ _ _ Hs). reflexivity.
Qed.

(** ** The generic routes [/explore] and [/execute-tool] *)

Lemma encoded_mk {A : Type} (dict : A -> Dict) cs (r : Result A) :
  encoded dict (mkAwait cs r) =
  mkAwait cs match r with
             | Return a => Return (JObj (dict a))
             | Raise e => Raise e
             end.
Proof.
  unfold encoded, bind. destruct r; cbn; [rewrite app_nil_r |]; reflexivity.
Qed.

Lemma execute_tool_relay client request api_key :
  http_client g = Some client ->
  execute_tool request api_key =
  mkAwait [execute_tool_call request]
    match relay client (execute_tool_call request) with
    | Return result =>
        match ExecuteToolResponse.validate result with
        | Some response => Return response
        | None =>
            Return (ExecuteToolResponse.mk false ""
                      (Some (construct_error_text "ExecuteToolResponse" result)))
        end
    | Raise e => Raise e
    end.
Proof.
  intros Hc. unfold execute_tool.
  rewrite (proxy_request_POST client "/execute-tool" _ Hc). cbn.
  fold (execute_tool_call request). unfold try_except, bind, construct. cbn.
  destruct (relay client (execute_tool_call request)) as [result | e] eqn:Hr.
  - cbn. destruct (ExecuteToolResponse.validate result); reflexivity.
  - destruct (relay_raises _ _ _ Hr) as (status & detail & ->). reflexivity.
Qed.

Lemma explore_code_relay client request api_key :
  http_client g = Some client ->
  explore_code request api_key =
  mkAwait [explore_call request]
    match relay client (explore_call request) with
    | Return result =>
        match ExploreCodeResponse.validate result with
        | Some response => Return response
        | None =>
            Return (ExploreCodeResponse.mk false "" None
                      (Some (construct_error_text "ExploreCodeResponse" result)))
        end
    | Raise e => Raise e
    end.
Proof.
  intros Hc. unfold explore_code.
  rewrite (proxy_request_POST client "/explore" _ Hc). cbn.
  fold (explore_call request). unfold try_except, bind, construct. cbn.
  destruct (relay client (explore_call request)) as [result | e] eqn:Hr.
  - cbn. destruct (ExploreCodeResponse.validate result); reflexivity.
  - destruct (relay_raises _ _ _ Hr) as (status & detail & ->). reflexivity.
Qed.

(** C1, as amended.  For an authenticated, well-formed POST to [/explore]
    or [/execute-tool] the gateway forwards one POST; when the backend
    answers it outside 2xx, or the call raises, the caller receives an
    HTTP error reply whose status is the backend's (500 when the call
    raised) and whose body is the structured payload [{"detail": text}],
    the text carrying the underlying message.  No exception leaves the
    route unhandled. *)
Theorem backend_failure_is_http_error client req :
  route req = POST_explore \/ route req = POST_execute_tool ->
  http_client g = Some client ->
  authenticated req ->
  well_formed req = true ->
  exists call,
    forwarded (app req) = [call] /\
    out_method call = "POST" /\
    reply (app req) <> InternalServerError /\
    forall status detail,
      Fails client call status detail ->
      reply (app req) = JSONResponse status (JObj [("detail", JStr detail)]).
Proof.
  intros Hr Hc [api_key Hk] Hw. unfold well_formed in Hw.
  destruct Hr as [Hr | Hr]; rewrite Hr in Hw; unfold app; rewrite Hr;
    unfold secured_with_body; rewrite Hk.
  - destruct (and_then (body req) ExploreCodeRequest.validate)
      as [request |]; [| discriminate Hw].
    exists (explore_call request). unfold respond.
    rewrite (explore_code_relay client request api_key Hc), encoded_mk. cbn.
    repeat split.
    + destruct (relay client (explore_call request)) as [result | e] eqn:Hrel.
      * destruct (ExploreCodeResponse.validate result); cbn; discriminate.
      * destruct (relay_raises _ _ _ Hrel) as (status & detail & ->).
        cbn. discriminate.
    + intros status detail Hf. rewrite (relay_fails _ _ _ _ Hf). reflexivity.
  - destruct (and_then (body req) ExecuteToolRequest.validate)
      as [request |]; [| discriminate Hw].
    exists (execute_tool_call request). unfold respond, tool_reply.
    rewrite (execute_tool_relay client request api_key Hc), encoded_mk. cbn.
    repeat split.
    + destruct (relay client (execute_tool_call request))
        as [result | e] eqn:Hrel.
      * destruct (ExecuteToolResponse.validate result); cbn; discriminate.
      * destruct (relay_raises _ _ _ Hrel) as (status & detail & ->).
        cbn. discriminate.
    + intros status detail Hf. rewrite (relay_fails _ _ _ _ Hf). reflexivity.
Qed.

(** ** The routes without a response model *)

(** C7, as amended.  [/tools], [/status], [/config] (GET and POST) and
    [/augment] return [proxy_request]'s result as it is: for an
    authenticated, well-formed request the gateway forwards one call, and
    when the backend answers it with a 2xx status and a JSON payload the
    caller receives exactly that payload. *)
Theorem passthrough_returns_payload client req :
  passthrough (route req) = true ->
  http_client g = Some client ->
  authenticated req ->
  well_formed req = true ->
  exists call,
    forwarded (app req) = [call] /\
    forall payload,
      Succeeds client call payload ->
      reply (app req) = JSONResponse 200 payload.
Proof.
  intros Hp Hc [api_key Hk] Hw. unfold well_formed in Hw.
  unfold app, secured, secured_with_body.
  destruct (route req); try discriminate Hp; rewrite Hk.
  - (* /tools *)
    unfold respond, list_tools.
    rewrite (proxy_request_GET client "/tools" None Hc). cbn.
    eexists. split; [reflexivity |].
    intros payload Hs. rewrite (relay_succeeds _ _ _ Hs). reflexivity.
  - (* /augment *)
    destruct (and_then (body req) AugmentQueryRequest.validate)
      as [request |]; [| discriminate Hw].
    unfold respond, augment_query.
    rewrite (proxy_request_POST client "/augment" _ Hc). cbn.
    eexists. split; [reflexivity |].
    intros payload Hs. rewrite (relay_succeeds _ _ _ Hs). reflexivity.
  - (* /status *)
    unfold respond, get_status.
    rewrite (proxy_request_GET client "/status" None Hc). cbn.
    eexists. split; [reflexivity |].
    intros payload Hs. rewrite (relay_succeeds _ _ _ Hs). reflexivity.
  - (* GET /config *)
    unfold respond, get_config.
    rewrite (proxy_request_GET client "/config" None Hc). cbn.
    eexists. split; [reflexivity |].
    intros payload Hs. rewrite (relay_succeeds _ _ _ Hs). reflexivity.
  - (* POST /config *)
    destruct (and_then (body req) ConfigUpdateRequest.validate)
      as [request |]; [| discriminate Hw].
    unfold respond, update_config.
    rewrite (proxy_request_POST client "/config" _ Hc). cbn.
    eexists. split; [reflexivity |].
    intros payload Hs. rewrite (relay_succeeds _ _ _ Hs). reflexivity.
Qed.

(** ** The convenience routes *)

(** C4.  Serving a request on a convenience route is serving, on
    [/execute-tool], the request that names the route's tool and whose
    parameter map is the dict of the route's request fields: same reply,
    same forwarded calls. *)
Theorem convenience_route_is_execute_tool req tool fields :
  convenience_tool (route req) = Some tool ->
  request_fields req = Some fields ->
  app req = app (execute_tool_request req tool fields).
Proof.
  unfold convenience_tool, request_fields, execute_tool_request, app.
  destruct (route req) eqn:Hr; intros Ht Hf; try discriminate Ht;
    injection Ht as <-; cbn [route];
    unfold secured_with_body, Depends_verify_api_key; cbn [authorization body];
    destruct (HTTPBearer (authorization req)) as [c | e]; try reflexivity;
    destruct (verify_api_key c) as [api_key | e]; try reflexivity;
    destruct (and_then (body req) _) as [request |]; try discriminate Hf;
    injection Hf as <-; reflexivity.
Qed.

(** C9.  A field left out of the body of a convenience route is forwarded
    with its declared default: [/search] without [max_results] forwards
    [max_results = 10], [/find-by-name] without [type] forwards
    [type = "any"], both in the parameter map handed to the generic path
    and in the JSON sent to the backend. *)
Theorem omitted_fields_forwarded_as_defaults client req d :
  http_client g = Some client ->
  authenticated req ->
  body req = Some (JObj d) ->
  (forall query,
      route req = POST_search ->
      dict_get "query" d = Some (JStr query) ->
      dict_get "max_results" d = None ->
      let parameters := [("query", JStr query); ("max_results", JInt 10)] in
      request_fields req = Some parameters /\
      forwarded (app req) =
      [mkOutbound "POST" (PROXY_BASE_URL g ++ "/execute-tool")
         (Some (JObj [("tool", JStr "search_code");
                      ("parameters", JObj parameters)]))])
  /\
  (forall name,
      route req = POST_find_by_name ->
      dict_get "name" d = Some (JStr name) ->
      dict_get "type" d = None ->
      let parameters := [("name", JStr name); ("type", JStr "any")] in
      request_fields req = Some parameters /\
      forwarded (app req) =
      [mkOutbound "POST" (PROXY_BASE_URL g ++ "/execute-tool")
         (Some (JObj [("tool", JStr "find_by_name");
                      ("parameters", JObj parameters)]))]).
Proof.
  intros Hc [api_key Hk] Hb. split.
  - intros query Hr Hq Hm parameters.
    assert (Hv : and_then (body req) SearchCodeRequest.validate =
                 Some (SearchCodeRequest.mk query (Some 10))).
    { rewrite Hb. cbn. unfold required, optional. rewrite Hq, Hm. reflexivity. }
    split.
    + unfold request_fields. rewrite Hr, Hv. reflexivity.
    + unfold app. rewrite Hr. unfold secured_with_body. rewrite Hk, Hv.
      unfold respond, tool_reply, search_code.
      rewrite (execute_tool_relay client _ api_key Hc), encoded_mk.
      reflexivity.
  - intros name Hr Hn Ht parameters.
    assert (Hv : and_then (body req) FindByNameRequest.validate =
                 Some (FindByNameRequest.mk name (Some "any"))).
    { rewrite Hb. cbn. unfold required, optional. rewrite Hn, Ht. reflexivity. }
    split.
    + unfold request_fields. rewrite Hr, Hv. reflexivity.
    + unfold app. rewrite Hr. unfold secured_with_body. rewrite Hk, Hv.
      unfold respond, tool_reply, find_by_name.
      rewrite (execute_tool_relay client _ api_key Hc), encoded_mk.
      reflexivity.
Qed.

(** ** [POST /config] *)

Lemma is_none_false value : is_none value = false <-> value <> JNull.
Proof.
  destruct value; cbn; split; intros H; try reflexivity; try discriminate;
    congruence.
Qed.

Lemma dict_get_not_key key (d : Dict) :
  ~ In key (keys d) -> dict_get key d = None.
Proof.
  induction d as [| [k v] rest IH]; cbn; intros Hn; [reflexivity |].
  destruct (String.eqb_spec k key) as [-> | Hne].
  - exfalso. apply Hn. now left.
  - apply IH. intros Hin. apply Hn. now right.
Qed.

(** Leaving out the [None] values of a dict with distinct keys keeps the
    binding of every other key. *)
Lemma dict_get_exclude_none key (d : Dict) :
  NoDup (keys d) ->
  dict_get key (filter (fun kv => negb (is_none (snd kv))) d) =
  match dict_get key d with
  | Some value => if is_none value then None else Some value
  | None => None
  end.
Proof.
  induction d as [| [k v] rest IH]; cbn; intros Hnd; [reflexivity |].
  inversion Hnd as [| ? ? Hk Hrest]; subst.
  destruct (String.eqb_spec k key) as [-> | Hne].
  - destruct (is_none v) eqn:Hv; cbn.
    + rewrite IH by exact Hrest. now rewrite (dict_get_not_key key rest Hk).
    + now rewrite String.eqb_refl.
  - destruct (is_none v); cbn.
    + now apply IH.
    + destruct (String.eqb_spec k key); [contradiction | now apply IH].
Qed.

Lemma optional_int_sound key d o :
  optional as_int None key d = Some o ->
  opt_json JInt o = or_null (dict_get key d).
Proof.
  unfold optional. destruct (dict_get key d) as [[] |]; cbn; intros H;
    inversion H; reflexivity.
Qed.

Lemma optional_bool_sound key d o :
  optional as_bool None key d = Some o ->
  opt_json JBool o = or_null (dict_get key d).
Proof.
  unfold optional. destruct (dict_get key d) as [[] |]; cbn; intros H;
    inversion H; reflexivity.
Qed.

(** The dict of a validated [ConfigUpdateRequest] repeats the body on the
    five declared fields, with [None] for an absent one. *)
Lemma config_dict_of_body d request :
  ConfigUpdateRequest.validate (JObj d) = Some request ->
  ConfigUpdateRequest.dict request =
  map (fun key => (key, or_null (dict_get key d))) config_fields.
Proof.
  unfold ConfigUpdateRequest.validate. cbn [as_dict and_then].
  destruct (optional as_int None "max_tool_calls" d) as [a |] eqn:Ha;
    [| discriminate].
  destruct (optional as_int None "max_rounds" d) as [b |] eqn:Hb;
    [| discriminate].
  destruct (optional as_bool None "include_tests" d) as [c |] eqn:Hc;
    [| discriminate].
  destruct (optional as_bool None "deep_exploration" d) as [e |] eqn:He;
    [| discriminate].
  destruct (optional as_int None "timeout_seconds" d) as [f |] eqn:Hf;
    [| discriminate].
  cbn [and_then]. intros H. injection H as <-.
  unfold ConfigUpdateRequest.dict. cbn.
  rewrite (optional_int_sound _ _ _ Ha), (optional_int_sound _ _ _ Hb),
    (optional_bool_sound _ _ _ Hc), (optional_bool_sound _ _ _ He),
    (optional_int_sound _ _ _ Hf).
  reflexivity.
Qed.

Lemma dict_get_tabulate_in key (f : string -> Json) (names : list string) :
  In key names ->
  dict_get key (map (fun k => (k, f k)) names) = Some (f key).
Proof.
  induction names as [| k rest IH]; cbn; [contradiction |].
  intros Hin. destruct (String.eqb_spec k key) as [-> | Hne]; [reflexivity |].
  destruct Hin as [Heq | Hin]; [contradiction | now apply IH].
Qed.

Lemma dict_get_tabulate_out key (f : string -> Json) (names : list string) :
  ~ In key names ->
  dict_get key (map (fun k => (k, f k)) names) = None.
Proof.
  intros Hn. apply dict_get_not_key. unfold keys.
  rewrite map_map. cbn. now rewrite map_id.
Qed.

(** C10.  The JSON body [POST /config] forwards holds exactly the
    configuration fields the request sets to a value other than [None],
    each with its value; a field left out of the request body, or given
    as [null], is not in the forwarded body. *)
Theorem update_config_forwards_set_fields client req d request :
  route req = POST_config ->
  http_client g = Some client ->
  authenticated req ->
  body req = Some (JObj d) ->
  ConfigUpdateRequest.validate (JObj d) = Some request ->
  exists sent,
    forwarded (app req) =
    [mkOutbound "POST" (PROXY_BASE_URL g ++ "/config") (Some (JObj sent))] /\
    (forall key value,
        dict_get key sent = Some value <->
        dict_get key (ConfigUpdateRequest.dict request) = Some value /\
        value <> JNull) /\
    (forall key value,
        dict_get key sent = Some value <->
        In key config_fields /\ dict_get key d = Some value /\ value <> JNull).
Proof.
  intros Hr Hc [api_key Hk] Hb Hv.
  exists (ConfigUpdateRequest.dict_exclude_none request).
  assert (Hnd : NoDup (keys (ConfigUpdateRequest.dict request))).
  { cbn. repeat constructor; cbn; intuition discriminate. }
  assert (Hrec : forall key value,
             dict_get key (ConfigUpdateRequest.dict_exclude_none request) =
               Some value <->
             dict_get key (ConfigUpdateRequest.dict request) = Some value /\
             value <> JNull).
  { intros key value. unfold ConfigUpdateRequest.dict_exclude_none.
    rewrite (dict_get_exclude_none key _ Hnd).
    destruct (dict_get key (ConfigUpdateRequest.dict request)) as [v |].
    - destruct (is_none v) eqn:Hn.
      + split; [discriminate |]. intros [Hs Hne]. injection Hs as ->.
        apply is_none_false in Hne. congruence.
      + split.
        * intros Hs. injection Hs as <-. split; [reflexivity |].
          now apply is_none_false.
        * now intros [Hs _].
    - split; [discriminate | now intros [Hs _]]. }
  split; [| split].
  - unfold app. rewrite Hr. unfold secured_with_body. rewrite Hk, Hb.
    cbn [and_then]. rewrite Hv. unfold respond, update_config.
    rewrite (proxy_request_POST client "/config" _ Hc). reflexivity.
  - exact Hrec.
  - intros key value. rewrite Hrec, (config_dict_of_body d request Hv).
    destruct (in_dec string_dec key config_fields) as [Hin | Hout].
    + rewrite (dict_get_tabulate_in key _ _ Hin).
      destruct (dict_get key d) as [v |]; cbn.
      * split; [intros [Hs Hne]; injection Hs as ->; auto | now intros (_ & Hs & Hne)].
      * split; [intros [Hs Hne]; congruence | intros (_ & Hs & _); discriminate].
    + rewrite (dict_get_tabulate_out key _ _ Hout).
      split; [intros [Hs _]; discriminate | intros (Hin & _); contradiction].
Qed.

(** ** Startup *)

Lemma try_port_calls client port :
  calls (try_port client port) = [probe_call port].
Proof.
  unfold try_port, probe_call. generalize (localhost port ++ "/health").
  intros url. unfold bind, get, lift, ret, response_json, py_get. cbn.
  destruct (send client _) as [r | m]; cbn; [| reflexivity].
  destruct (status_code r =? 200); cbn; [| reflexivity].
  destruct (json r) as [data | m]; cbn; [| reflexivity].
  destruct data; cbn; try reflexivity.
  destruct (equals_str _ _); reflexivity.
Qed.

Lemma try_port_match client port :
  signature_matches client port = true ->
  exists data, outcome (try_port client port) = Return (Some data).
Proof.
  unfold signature_matches, try_port, probe_call.
  generalize (localhost port ++ "/health"). intros url.
  unfold bind, get, lift, ret, response_json, py_get. cbn.
  destruct (send client _) as [r | m]; cbn; [| discriminate].
  destruct (status_code r =? 200); cbn; [| discriminate].
  destruct (json r) as [data | m]; cbn; [| discriminate].
  destruct data as [| | | | | | data]; cbn; try discriminate.
  destruct (dict_get "service" data) as [[] |]; cbn; try discriminate.
  intros ->. cbn. eauto.
Qed.

Lemma try_port_no_match client port :
  signature_matches client port = false ->
  outcome (try_port client port) = Return None \/
  exists e, outcome (try_port client port) = Raise e.
Proof.
  unfold signature_matches, try_port, probe_call.
  generalize (localhost port ++ "/health"). intros url.
  unfold bind, get, lift, ret, response_json, py_get. cbn.
  destruct (send client _) as [r | m]; cbn; [| eauto].
  destruct (status_code r =? 200); cbn; [| auto].
  destruct (json r) as [data | m]; cbn; [| eauto].
  destruct data as [| | | | | | data]; cbn; eauto.
  destruct (dict_get "service" data) as [[] |]; cbn; auto.
  intros ->. cbn. auto.
Qed.

Lemma for_port_spec client ports : forall st,
  (exists before port after data,
      ports = (before ++ port :: after)%list /\
      Forall (no_match client) before /\
      signature_matches client port = true /\
      for_port client ports st =
      mkStartup (localhost port) true
        (probes st ++ map probe_call (before ++ [port]))
        (log st ++ [(INFO, FoundProxyOnPort port);
                    (INFO, Project (dict_get "project" data))]))
  \/
  (Forall (no_match client) ports /\
   for_port client ports st =
   mkStartup (base_url st) (proxy_found st)
     (probes st ++ map probe_call ports) (log st)).
Proof.
  induction ports as [| port rest IH]; intros st.
  - right. split; [constructor |]. cbn. rewrite app_nil_r.
    destruct st; reflexivity.
  - cbn [for_port]. rewrite try_port_calls.
    destruct (signature_matches client port) eqn:Hm.
    + left. destruct (try_port_match client port Hm) as [data Hd].
      rewrite Hd. exists [], port, rest, data. cbn. auto.
    + set (st' := mkStartup (base_url st) (proxy_found st)
                    (probes st ++ [probe_call port]) (log st)).
      assert (Hnext : match outcome (try_port client port) with
                      | Return (Some data) =>
                          mkStartup (localhost port) true (probes st')
                            (log st' ++
                             [(INFO, FoundProxyOnPort port);
                              (INFO, Project (dict_get "project" data))])
                      | Return None => for_port client rest st'
                      | Raise _ => for_port client rest st'
                      end = for_port client rest st').
      { destruct (try_port_no_match client port Hm) as [-> | [e ->]];
          reflexivity. }
      rewrite Hnext. clear Hnext.
      destruct (IH st') as
        [(before & p & after & data & Hp & Hb & Hs & Hf) | [Hall Hf]].
      * left. exists (port :: before), p, after, data.
        rewrite Hf, Hp. cbn. rewrite <- app_assoc. auto.
      * right. split; [constructor; assumption |].
        rewrite Hf. cbn. rewrite <- app_assoc. reflexivity.
Qed.

(** C6.  Startup probes the local ports 8765 to 8775 in increasing order
    and stops at the first whose health probe comes back with status 200
    and the service signature "agent-proxy": that port gives the base URL.
    When no port matches, all eleven are probed, the base URL stays as
    configured and the only trace is a warning in the log.  In both cases
    startup ends with the HTTP client in place. *)
Theorem lifespan_discovers_proxy client :
  let ports := [8765; 8766; 8767; 8768; 8769; 8770; 8771; 8772; 8773; 8774;
                8775] in
  let '(started, sent, written) := lifespan client g in
  range 8765 8776 = ports /\
  http_client started = Some client /\
  API_KEY started = API_KEY g /\
  ((exists before port after,
       ports = (before ++ port :: after)%list /\
       Forall (no_match client) before /\
       signature_matches client port = true /\
       PROXY_BASE_URL started = localhost port /\
       sent = map probe_call (before ++ [port]) /\
       ~ In (WARNING, NoProxyFound) written)
   \/
   (Forall (no_match client) ports /\
    PROXY_BASE_URL started = PROXY_BASE_URL g /\
    sent = map probe_call ports /\
    written = [(INFO, Starting); (WARNING, NoProxyFound)])).
Proof.
  intros ports. unfold lifespan.
  change (range 8765 8776) with ports.
  set (st0 := mkStartup (PROXY_BASE_URL g) false [] [(INFO, Starting)]).
  destruct (for_port_spec client ports st0) as
    [(before & port & after & data & Hp & Hb & Hs & Hf) | [Hall Hf]];
    rewrite Hf; cbn [proxy_found negb base_url probes log st0 app].
  - repeat split. left. exists before, port, after.
    repeat split; try assumption.
    cbn. intros [H | [H | [H | []]]]; discriminate.
  - repeat split. right. repeat split; assumption.
Qed.

(** ** Further properties of [proxy_request] *)

Lemma proxy_request_uninitialised endpoint method json_data :
  http_client g = None ->
  proxy_request endpoint method json_data =
  raise (HTTPException 500 "HTTP client not initialized").
Proof. intros Hc. unfold proxy_request. rewrite Hc. reflexivity. Qed.

Lemma proxy_request_unsupported_method_aux client endpoint method json_data :
  http_client g = Some client ->
  method <> "GET" ->
  method <> "POST" ->
  proxy_request endpoint method json_data =
  mkAwait []
    (Raise (HTTPException 500
              ("Proxy request failed: Unsupported method: " ++ method))).
Proof.
  intros Hc Hg Hp. unfold proxy_request. rewrite Hc.
  destruct (String.eqb_spec method "GET") as [? | _]; [contradiction |].
  destruct (String.eqb_spec method "POST") as [? | _]; [contradiction |].
  reflexivity.
Qed.

(** X1.  A method other than GET and POST never reaches the backend: the
    [ValueError] raised inside the [try] comes back as an [HTTPException]
    500 whose detail names the method, and no call is made. *)
Theorem proxy_request_unsupported_method client endpoint method json_data :
  http_client g = Some client ->
  method <> "GET" ->
  method <> "POST" ->
  proxy_request endpoint method json_data =
  mkAwait []
    (Raise (HTTPException 500
              ("Proxy request failed: Unsupported method: " ++ method))).
Proof.
  exact (proxy_request_unsupported_method_aux client endpoint method json_data).
Qed.

Lemma proxy_request_tame endpoint method json_data :
  tame (proxy_request endpoint method json_data).
Proof.
  destruct (http_client g) as [client |] eqn:Hc.
  - destruct (String.eqb_spec method "GET") as [-> | Hg].
    + rewrite (proxy_request_GET client endpoint json_data Hc). split.
      * right. eexists. exists endpoint. split; reflexivity.
      * cbn. apply relay_raises.
    + destruct (String.eqb_spec method "POST") as [-> | Hp].
      * rewrite (proxy_request_POST client endpoint json_data Hc). split.
        -- right. eexists. exists endpoint. split; reflexivity.
        -- cbn. apply relay_raises.
      * rewrite (proxy_request_unsupported_method_aux client endpoint method
                   json_data Hc Hg Hp).
        split; [now left |]. cbn. intros e H. inversion H. eauto.
  - rewrite (proxy_request_uninitialised endpoint method json_data Hc).
    split; [now left |]. cbn. intros e H. inversion H. eauto.
Qed.

(** ** Every route: one call at most, no unhandled fault *)

Lemma execute_tool_tame request api_key : tame (execute_tool request api_key).
Proof.
  destruct (http_client g) as [client |] eqn:Hc.
  - rewrite (execute_tool_relay client request api_key Hc). split.
    + right. exists (execute_tool_call request), "/execute-tool".
      split; reflexivity.
    + cbn. destruct (relay client (execute_tool_call request))
        as [result | e0] eqn:Hr.
      * destruct (ExecuteToolResponse.validate result); intros e H;
          discriminate H.
      * intros e H. injection H as <-. exact (relay_raises _ _ _ Hr).
  - unfold execute_tool.
    rewrite (proxy_request_uninitialised "/execute-tool" "POST" _ Hc).
    split; [now left |]. cbn. intros e H. inversion H. eauto.
Qed.

Lemma explore_code_tame request api_key : tame (explore_code request api_key).
Proof.
  destruct (http_client g) as [client |] eqn:Hc.
  - rewrite (explore_code_relay client request api_key Hc). split.
    + right. exists (explore_call request), "/explore". split; reflexivity.
    + cbn. destruct (relay client (explore_call request))
        as [result | e0] eqn:Hr.
      * destruct (ExploreCodeResponse.validate result); intros e H;
          discriminate H.
      * intros e H. injection H as <-. exact (relay_raises _ _ _ Hr).
  - unfold explore_code.
    rewrite (proxy_request_uninitialised "/explore" "POST" _ Hc).
    split; [now left |]. cbn. intros e H. inversion H. eauto.
Qed.

Lemma health_check_tame : tame health_check.
Proof.
  destruct (http_client g) as [client |] eqn:Hc.
  - rewrite (health_check_relay client Hc). split.
    + right. exists health_call, "/health". split; reflexivity.
    + cbn. intros e H. discriminate H.
  - unfold health_check.
    rewrite (proxy_request_uninitialised "/health" "GET" None Hc).
    split; [now left |]. cbn. intros e H. discriminate H.
Qed.

Lemma encoded_tame {A : Type} (dict : A -> Dict) (m : Await A) :
  tame m -> tame (encoded dict m).
Proof.
  destruct m as [cs r]. rewrite encoded_mk. unfold tame. cbn.
  intros [Hcalls Hraise]. split; [exact Hcalls |].
  destruct r as [a | e0]; intros e H; [discriminate H |].
  injection H as <-. now apply Hraise.
Qed.

Lemma respond_tame (m : Await Json) : tame m -> well_served (respond m).
Proof.
  intros [Hcalls Hraise]. split; [exact Hcalls |]. unfold respond. cbn.
  destruct (outcome m) as [content | e] eqn:Ho; [discriminate |].
  destruct (Hraise e eq_refl) as (status & detail & ->). discriminate.
Qed.

Lemma Depends_raises req e :
  Depends_verify_api_key req = Raise e ->
  exists status detail, e = HTTPException status detail.
Proof.
  unfold Depends_verify_api_key.
  destruct (HTTPBearer (authorization req)) as [c | e0] eqn:Hb.
  - unfold verify_api_key. destruct (_ && _); intros H; inversion H. eauto.
  - intros H. injection H as <-.
    destruct (HTTPBearer_raises _ _ Hb) as [detail ->]. eauto.
Qed.

Lemma refused_well_served e :
  (exists status detail, e = HTTPException status detail) ->
  well_served (mkServed [] (render (Raise e))).
Proof.
  intros (status & detail & ->). split; [now left | discriminate].
Qed.

Lemma secured_well_served req (handler : string -> Await Json) :
  (forall api_key, tame (handler api_key)) ->
  well_served (secured req handler).
Proof.
  intros Ht. unfold secured.
  destruct (Depends_verify_api_key req) as [api_key | e] eqn:Hd.
  - apply respond_tame, Ht.
  - apply refused_well_served. exact (Depends_raises req e Hd).
Qed.

Lemma secured_with_body_well_served {A : Type} req
  (validate : Json -> option A) (handler : A -> string -> Await Json) :
  (forall request api_key, tame (handler request api_key)) ->
  well_served (secured_with_body req validate handler).
Proof.
  intros Ht. unfold secured_with_body.
  destruct (Depends_verify_api_key req) as [api_key | e] eqn:Hd.
  - destruct (and_then (body req) validate) as [request |].
    + apply respond_tame, Ht.
    + split; [now left | discriminate].
  - apply refused_well_served. exact (Depends_raises req e Hd).
Qed.

Lemma app_well_served req : well_served (app req).
Proof.
  unfold app.
  destruct (route req);
    first
      [ apply respond_tame, health_check_tame
      | apply secured_well_served; intros api_key;
        unfold list_tools, get_status, get_config; apply proxy_request_tame
      | apply secured_with_body_well_served; intros request api_key;
        unfold augment_query, update_config; apply proxy_request_tame
      | apply secured_with_body_well_served; intros request api_key;
        apply encoded_tame, explore_code_tame
      | apply secured_with_body_well_served; intros request api_key;
        unfold tool_reply, search_code, find_by_name, read_file,
          find_relationships, find_usages, get_class_info;
        apply encoded_tame, execute_tool_tame ].
Qed.

(** X2.  Whatever the request and whatever the backend does, serving a
    request makes at most one outbound call, and that call goes to a URL
    under [PROXY_BASE_URL]: there is no retry and no second backend. *)
Theorem at_most_one_call_under_base_url req :
  (length (forwarded (app req)) <= 1)%nat /\
  forall call, In call (forwarded (app req)) ->
               exists endpoint, out_url call = PROXY_BASE_URL g ++ endpoint.
Proof.
  destruct (app_well_served req) as [[Hn | (c & endpoint & Hc & Hu)] _].
  - rewrite Hn. cbn. split; [lia | contradiction].
  - rewrite Hc. cbn. split; [lia |].
    intros call [<- | []]. eauto.
Qed.

(** X3.  No route lets an exception reach the caller as an unhandled
    fault: every reply is a JSON response or a validation error, for every
    request, every backend behaviour and also before the HTTP client
    exists. *)
Theorem no_unhandled_fault req : reply (app req) <> InternalServerError.
Proof. exact (proj2 (app_well_served req)). Qed.

(** ** Before startup *)

Lemma execute_tool_uninitialised request api_key :
  http_client g = None ->
  execute_tool request api_key =
  raise (HTTPException 500 "HTTP client not initialized").
Proof.
  intros Hc. unfold execute_tool.
  rewrite (proxy_request_uninitialised "/execute-tool" "POST" _ Hc).
  reflexivity.
Qed.

Lemma explore_code_uninitialised request api_key :
  http_client g = None ->
  explore_code request api_key =
  raise (HTTPException 500 "HTTP client not initialized").
Proof.
  intros Hc. unfold explore_code.
  rewrite (proxy_request_uninitialised "/explore" "POST" _ Hc).
  reflexivity.
Qed.

Lemma health_check_uninitialised :
  http_client g = None -> health_check = ret (healthy false JNull).
Proof.
  intros Hc. unfold health_check.
  rewrite (proxy_request_uninitialised "/health" "GET" None Hc).
  reflexivity.
Qed.

Lemma secured_quiet req (handler : string -> Await Json) :
  (forall api_key, calls (handler api_key) = []) ->
  forwarded (secured req handler) = [].
Proof.
  intros Hq. unfold secured.
  destruct (Depends_verify_api_key req); [apply Hq | reflexivity].
Qed.

Lemma secured_with_body_quiet {A : Type} req (validate : Json -> option A)
  (handler : A -> string -> Await Json) :
  (forall request api_key, calls (handler request api_key) = []) ->
  forwarded (secured_with_body req validate handler) = [].
Proof.
  intros Hq. unfold secured_with_body.
  destruct (Depends_verify_api_key req); [| reflexivity].
  destruct (and_then (body req) validate); [apply Hq | reflexivity].
Qed.

Lemma app_quiet_uninitialised req :
  http_client g = None -> forwarded (app req) = [].
Proof.
  intros Hc. unfold app.
  destruct (route req);
    first
      [ rewrite (health_check_uninitialised Hc); reflexivity
      | apply secured_quiet; intros api_key;
        unfold list_tools, get_status, get_config;
        rewrite (proxy_request_uninitialised _ _ _ Hc); reflexivity
      | apply secured_with_body_quiet; intros request api_key;
        unfold augment_query, update_config;
        rewrite (proxy_request_uninitialised _ _ _ Hc); reflexivity
      | apply secured_with_body_quiet; intros request api_key;
        rewrite (explore_code_uninitialised _ _ Hc); reflexivity
      | apply secured_with_body_quiet; intros request api_key;
        unfold tool_reply, search_code, find_by_name, read_file,
          find_relationships, find_usages, get_class_info;
        rewrite (execute_tool_uninitialised _ _ Hc); reflexivity ].
Qed.

(** X4.  While [http_client] is still [None] nothing is forwarded, for any
    request.  [/health] then reports the proxy as not connected, and every
    other route answers an authenticated, well-formed request with 500 and
    the detail "HTTP client not initialized". *)
Theorem before_startup_nothing_forwarded req :
  http_client g = None ->
  forwarded (app req) = [] /\
  (route req = GET_health ->
   reply (app req) = JSONResponse 200 (healthy false JNull)) /\
  (protected (route req) = true ->
   authenticated req ->
   well_formed req = true ->
   reply (app req) =
   JSONResponse 500 (JObj [("detail", JStr "HTTP client not initialized")])).
Proof.
  intros Hc. split; [exact (app_quiet_uninitialised req Hc) | split].
  - intros Hr. unfold app. rewrite Hr, (health_check_uninitialised Hc).
    reflexivity.
  - intros Hp [api_key Hk]. unfold well_formed, app.
    destruct (route req); try discriminate Hp;
      unfold secured, secured_with_body; rewrite Hk;
      try match goal with
          | |- context [and_then (body req) ?v] =>
              destruct (and_then (body req) v) as [request |];
              [intros _ | intros Hw; discriminate Hw]
          end;
      try intros _;
      unfold tool_reply, search_code, find_by_name, read_file,
        find_relationships, find_usages, get_class_info, list_tools,
        augment_query, get_status, get_config, update_config;
      try rewrite (execute_tool_uninitialised _ _ Hc);
      try rewrite (explore_code_uninitialised _ _ Hc);
      try rewrite (proxy_request_uninitialised _ _ _ Hc);
      reflexivity.
Qed.

(** ** Which credentials pass *)

Lemma truthy_true s : truthy s = true <-> s <> "".
Proof.
  unfold truthy. destruct (String.eqb_spec s ""); cbn; split; intros H;
    try reflexivity; try discriminate; congruence.
Qed.

(** X5.  The dependency accepts a request exactly when it presents a
    bearer token and either no key is configured or the token is the key;
    the value handed to the handler is that token. *)
Theorem dependency_accepts_exactly req api_key :
  Depends_verify_api_key req = Return api_key <->
  bearer_token req = Some api_key /\
  (API_KEY g = "" \/ api_key = API_KEY g).
Proof.
  unfold Depends_verify_api_key, bearer_token, verify_api_key.
  destruct (HTTPBearer (authorization req)) as [c | e].
  - destruct (String.eqb_spec (credentials c) (API_KEY g)) as [Heq | Hne];
      cbn; rewrite ?andb_false_r, ?andb_true_r.
    + split.
      * intros H. injection H as <-. auto.
      * intros [H _]. injection H as <-. reflexivity.
    + destruct (truthy (API_KEY g)) eqn:Hk.
      * split; [discriminate |]. intros [H [He | He]].
        -- apply truthy_true in Hk. contradiction.
        -- injection H as <-. contradiction.
      * split.
        -- intros H. injection H as <-. split; [reflexivity |]. left.
           unfold truthy in Hk. destruct (String.eqb_spec (API_KEY g) "");
             [assumption | discriminate].
        -- intros [H _]. injection H as <-. reflexivity.
  - split; [discriminate | intros [H _]; discriminate].
Qed.

Lemma HTTPBearer_bearer_header api_key :
  api_key <> "" ->
  HTTPBearer (Some (bearer_header api_key)) =
  Return (mkCredentials "Bearer" api_key).
Proof.
  intros Hk. unfold HTTPBearer, bearer_header. cbn.
  apply truthy_true in Hk. rewrite Hk. reflexivity.
Qed.

(** X6.  The header the clients build, "Bearer " followed by the API key,
    passes the dependency of a gateway configured with that key, and of a
    gateway with no key configured, and hands the key to the handler --
    for any non-empty key, spaces inside it included. *)
Theorem bearer_header_accepted req api_key :
  api_key <> "" ->
  authorization req = Some (bearer_header api_key) ->
  API_KEY g = "" \/ API_KEY g = api_key ->
  Depends_verify_api_key req = Return api_key.
Proof.
  intros Hk Ha Hg. unfold Depends_verify_api_key.
  rewrite Ha, (HTTPBearer_bearer_header api_key Hk).
  unfold verify_api_key. cbn [credentials].
  destruct Hg as [-> | ->].
  - reflexivity.
  - rewrite String.eqb_refl, andb_false_r. reflexivity.
Qed.

(** ** The routes that end in [execute_tool] *)

Lemma tool_route_served req api_key request :
  Depends_verify_api_key req = Return api_key ->
  tool_request req = Some request ->
  app req = respond (tool_reply (execute_tool request api_key)).
Proof.
  intros Hk. unfold tool_request, request_fields, app.
  destruct (route req); cbn [convenience_tool]; try discriminate;
    unfold secured_with_body; rewrite Hk;
    match goal with
    | |- context [and_then (body req) ?v] =>
        destruct (and_then (body req) v) as [r |]
    end; cbn [option_map]; intros H; try discriminate H;
    injection H as <-; reflexivity.
Qed.

Lemma tool_reply_relay client request api_key :
  http_client g = Some client ->
  respond (tool_reply (execute_tool request api_key)) =
  mkServed [execute_tool_call request]
    (render
       match relay client (execute_tool_call request) with
       | Return result =>
           match ExecuteToolResponse.validate result with
           | Some response => Return (JObj (ExecuteToolResponse.dict response))
           | None =>
               Return
                 (JObj [("success", JBool false); ("content", JStr "");
                        ("error",
                         JStr (construct_error_text "ExecuteToolResponse"
                                 result))])
           end
       | Raise e => Raise e
       end).
Proof.
  intros Hc. unfold respond, tool_reply.
  rewrite (execute_tool_relay client request api_key Hc), encoded_mk. cbn.
  destruct (relay client (execute_tool_call request)) as [result | e];
    [| reflexivity].
  destruct (ExecuteToolResponse.validate result); reflexivity.
Qed.

(** X7.  On [/execute-tool] and on each convenience route, an
    authenticated, well-formed request is forwarded as one POST to
    [/execute-tool] under the base URL whose JSON body names the tool and
    carries the parameter map. *)
Theorem tool_routes_post_to_execute_tool client req api_key request :
  http_client g = Some client ->
  Depends_verify_api_key req = Return api_key ->
  tool_request req = Some request ->
  forwarded (app req) =
  [mkOutbound "POST" (PROXY_BASE_URL g ++ "/execute-tool")
     (Some (JObj [("tool", JStr (ExecuteToolRequest.tool request));
                  ("parameters",
                   JObj (ExecuteToolRequest.parameters request))]))].
Proof.
  intros Hc Hk Ht.
  rewrite (tool_route_served req api_key request Hk Ht),
    (tool_reply_relay client request api_key Hc).
  reflexivity.
Qed.


Lemma optional_str_sound key d o :
  optional as_str None key d = Some o ->
  opt_json JStr o = or_null (dict_get key d).
Proof.
  unfold optional. destruct (dict_get key d) as [[] |]; cbn; intros H;
    inversion H; reflexivity.
Qed.

(** X9.  When the backend answers such a call with a 2xx JSON object that
    has a boolean [success] and a string [content] (and an [error] that is
    absent, [null] or a string), the caller receives 200 with exactly the
    three fields [success], [content] and [error] -- the payload's values,
    [null] for an absent [error] -- and no other key of the payload. *)
Theorem tool_payload_normalised client req api_key request d s c :
  http_client g = Some client ->
  Depends_verify_api_key req = Return api_key ->
  tool_request req = Some request ->
  Succeeds client (execute_tool_call request) (JObj d) ->
  dict_get "success" d = Some (JBool s) ->
  dict_get "content" d = Some (JStr c) ->
  (dict_get "error" d = None \/ dict_get "error" d = Some JNull \/
   exists message, dict_get "error" d = Some (JStr message)) ->
  reply (app req) =
  JSONResponse 200
    (JObj [("success", JBool s); ("content", JStr c);
           ("error", or_null (dict_get "error" d))]).
Proof.
  intros Hc Hk Ht Hs Hsucc Hcont Herr.
  rewrite (tool_route_served req api_key request Hk Ht),
    (tool_reply_relay client request api_key Hc),
    (relay_succeeds _ _ _ Hs).
  unfold ExecuteToolResponse.validate. cbn [as_dict and_then].
  unfold required. rewrite Hsucc, Hcont. cbn [as_bool as_str and_then].
  destruct (optional as_str None "error" d) as [e |] eqn:He.
  - cbn [and_then]. unfold ExecuteToolResponse.dict. cbn.
    rewrite (optional_str_sound _ _ _ He). reflexivity.
  - exfalso. unfold optional in He.
    destruct Herr as [H | [H | [message H]]]; rewrite H in He;
      discriminate He.
Qed.

(** ** The models *)

(** X10.  Every model reads back its own [.dict()]: validating the dict of
    a model gives that model again, defaults and [None] fields included. *)
Theorem models_read_back_their_dict :
  (forall r, ExploreCodeRequest.validate (JObj (ExploreCodeRequest.dict r))
             = Some r) /\
  (forall r, ExploreCodeResponse.validate (JObj (ExploreCodeResponse.dict r))
             = Some r) /\
  (forall r, ExecuteToolRequest.validate (JObj (ExecuteToolRequest.dict r))
             = Some r) /\
  (forall r, ExecuteToolResponse.validate (JObj (ExecuteToolResponse.dict r))
             = Some r) /\
  (forall r, SearchCodeRequest.validate (JObj (SearchCodeRequest.dict r))
             = Some r) /\
  (forall r, FindByNameRequest.validate (JObj (FindByNameRequest.dict r))
             = Some r) /\
  (forall r, ReadFileRequest.validate (JObj (ReadFileRequest.dict r))
             = Some r) /\
  (forall r, FindRelationshipsRequest.validate
               (JObj (FindRelationshipsRequest.dict r)) = Some r) /\
  (forall r, FindUsagesRequest.validate (JObj (FindUsagesRequest.dict r))
             = Some r) /\
  (forall r, GetClassInfoRequest.validate (JObj (GetClassInfoRequest.dict r))
             = Some r) /\
  (forall r, AugmentQueryRequest.validate (JObj (AugmentQueryRequest.dict r))
             = Some r) /\
  (forall r, ConfigUpdateRequest.validate (JObj (ConfigUpdateRequest.dict r))
             = Some r).
Proof.
  repeat split; intros r; destruct r;
    repeat match goal with o : option _ |- _ => destruct o end;
    reflexivity.
Qed.

(** ** Bodies that do not validate *)

(** X11.  An authenticated request to a route with a body model is
    answered with a validation error, and nothing is forwarded, when it
    has no body, when its body is not a JSON object, or when the object
    lacks a field the model declares without a default. *)
Theorem invalid_body_unprocessable req :
  authenticated req ->
  takes_body (route req) = true ->
  (body req = None \/
   (exists j, body req = Some j /\ as_dict j = None) \/
   (exists d key, body req = Some (JObj d) /\
                  In key (required_fields (route req)) /\
                  dict_get key d = None)) ->
  app req = mkServed [] ValidationErrorResponse.
Proof.
  intros [api_key Hk] Ht Hb. unfold app.
  destruct (route req); try discriminate Ht;
    unfold secured_with_body; rewrite Hk;
    match goal with
    | |- context [and_then (body req) ?v] =>
        assert (Hv : and_then (body req) v = None);
        [| rewrite Hv; reflexivity]
    end;
    (destruct Hb as [-> | [(j & -> & Hj) | (d & key & -> & Hin & Hd)]];
     [ reflexivity
     | cbn [and_then];
       unfold ExploreCodeRequest.validate, ExecuteToolRequest.validate,
         SearchCodeRequest.validate, FindByNameRequest.validate,
         ReadFileRequest.validate, FindRelationshipsRequest.validate,
         FindUsagesRequest.validate, GetClassInfoRequest.validate,
         AugmentQueryRequest.validate, ConfigUpdateRequest.validate;
       rewrite Hj; reflexivity
     | cbn in Hin;
       repeat match type of Hin with
              | _ \/ _ => destruct Hin as [<- | Hin]
              | False => contradiction
              end;
       cbn [and_then];
       unfold ExploreCodeRequest.validate, ExecuteToolRequest.validate,
         SearchCodeRequest.validate, FindByNameRequest.validate,
         ReadFileRequest.validate, FindRelationshipsRequest.validate,
         FindUsagesRequest.validate, GetClassInfoRequest.validate,
         AugmentQueryRequest.validate, ConfigUpdateRequest.validate;
       cbn [as_dict and_then]; unfold required;
       try rewrite Hd; try reflexivity;
       destruct (dict_get "tool" d) as [[] |]; cbn; try reflexivity;
       rewrite Hd; reflexivity ]).
Qed.

(** ** The forwarded configuration, field by field *)

Lemma exclude_none_tabulate (d : Dict) (names : list string) :
  filter (fun kv => negb (is_none (snd kv)))
    (map (fun key => (key, or_null (dict_get key d))) names) =
  flat_map (set_in d) names.
Proof.
  induction names as [| key rest IH]; [reflexivity |].
  cbn [map filter flat_map snd]. rewrite IH. unfold set_in.
  destruct (dict_get key d) as [value |]; cbn [or_null].
  - destruct (is_none value); reflexivity.
  - reflexivity.
Qed.

(** X12.  The JSON object [POST /config] forwards lists the fields the
    body sets to a value other than [null] in the order the model declares
    them, each once and with the body's value, whatever the order of the
    keys in the body and whatever other keys it holds. *)
Theorem update_config_body_in_declaration_order client req d request :
  route req = POST_config ->
  http_client g = Some client ->
  authenticated req ->
  body req = Some (JObj d) ->
  ConfigUpdateRequest.validate (JObj d) = Some request ->
  forwarded (app req) =
  [mkOutbound "POST" (PROXY_BASE_URL g ++ "/config")
     (Some (JObj (flat_map (set_in d) config_fields)))].
Proof.
  intros Hr Hc [api_key Hk] Hb Hv.
  unfold app. rewrite Hr. unfold secured_with_body. rewrite Hk, Hb.
  cbn [and_then]. rewrite Hv. unfold respond, update_config.
  rewrite (proxy_request_POST client "/config" _ Hc).
  unfold ConfigUpdateRequest.dict_exclude_none.
  rewrite (config_dict_of_body d request Hv), exclude_none_tabulate.
  reflexivity.
Qed.

(** ** Backend failures on the other routes *)

Lemma convenience_tool_request req tool :
  convenience_tool (route req) = Some tool ->
  well_formed req = true ->
  exists request, tool_request req = Some request.
Proof.
  unfold convenience_tool, well_formed, tool_request, request_fields.
  destruct (route req); intros Ht; try discriminate Ht;
    cbn [convenience_tool];
    match goal with
    | |- context [and_then (body req) ?v] =>
        destruct (and_then (body req) v) as [r |]
    end; intros Hw; try discriminate Hw; cbn [option_map]; eauto.
Qed.

(** X13.  On the routes without a response model and on the convenience
    routes, as on the generic ones, a backend failure reaches the caller
    as an HTTP error with the backend's status (500 when the call raised)
    and the text of the failure as [detail]. *)
Theorem backend_failure_relayed_on_other_routes client req :
  passthrough (route req) = true \/ convenience_tool (route req) <> None ->
  http_client g = Some client ->
  authenticated req ->
  well_formed req = true ->
  exists call,
    forwarded (app req) = [call] /\
    forall status detail,
      Fails client call status detail ->
      reply (app req) = JSONResponse status (JObj [("detail", JStr detail)]).
Proof.
  intros Hroute Hc [api_key Hk] Hw.
  destruct (convenience_tool (route req)) as [tool |] eqn:Htool.
  - destruct (convenience_tool_request req tool Htool Hw) as [request Hreq].
    exists (execute_tool_call request).
    rewrite (tool_route_served req api_key request Hk Hreq),
      (tool_reply_relay client request api_key Hc).
    split; [reflexivity |].
    intros status detail Hf. cbn [reply].
    rewrite (relay_fails _ _ _ _ Hf). reflexivity.
  - destruct Hroute as [Hp | Hn]; [| contradiction].
    unfold well_formed in Hw. unfold app, secured, secured_with_body.
    destruct (route req); try discriminate Hp; rewrite Hk;
      try match goal with
          | |- context [and_then (body req) ?v] =>
              destruct (and_then (body req) v) as [request |];
              [| discriminate Hw]
          end;
      unfold respond, list_tools, augment_query, get_status, get_config,
        update_config;
      first [ rewrite (proxy_request_GET client _ None Hc)
            | rewrite (proxy_request_POST client _ _ Hc) ];
      cbn; (eexists; split; [reflexivity |]);
      intros status detail Hf; rewrite (relay_fails _ _ _ _ Hf);
      reflexivity.
Qed.

(** ** Startup, once more *)



(** Starting the loop from another base URL changes nothing but the base
    URL it leaves when no port matches. *)
Lemma for_port_rebase client ports : forall st b,
  let r := for_port client ports st in
  let r' := for_port client ports
              (mkStartup b (proxy_found st) (probes st) (log st)) in
  r' = r \/
  (r' = mkStartup b (proxy_found r) (probes r) (log r) /\
   base_url r = base_url st).
Proof.
  induction ports as [| port rest IH]; intros st b; cbn zeta.
  - right. cbn. auto.
  - cbn [for_port base_url proxy_found probes log].
    destruct (outcome (try_port client port)) as [[data |] | e].
    + left. reflexivity.
    + exact (IH (mkStartup (base_url st) (proxy_found st)
                   (probes st ++ calls (try_port client port)) (log st)) b).
    + exact (IH (mkStartup (base_url st) (proxy_found st)
                   (probes st ++ calls (try_port client port)) (log st)) b).
Qed.

(** ** The client in front of the gateway *)

(** X16.  Every call a [ZestAPIClient] makes reaches a route of the
    gateway with the session's header, and its body passes the validation
    of that route -- for all arguments, an empty [config] or
    [relation_type] included ([update_config]: for keyword arguments the
    model accepts). *)
Theorem client_calls_are_well_formed self i :
  acceptable i ->
  exists req,
    receive (perform self i) = Some req /\
    authorization req = ZestAPIClient.authorization_header self /\
    well_formed req = true.
Proof.
  intros Hi. destruct i; cbn in Hi |- *;
    (eexists; split; [reflexivity |]; split; [reflexivity |]);
    unfold well_formed; cbn.
  - reflexivity.
  - destruct config as [[| binding more] |]; reflexivity.
  - reflexivity.
  - reflexivity.
  - reflexivity.
  - destruct relation_type as [kind |]; [destruct (truthy kind) |];
      reflexivity.
  - reflexivity.
  - reflexivity.
  - reflexivity.
  - reflexivity.
  - reflexivity.
  - reflexivity.
  - match type of Hi with
    | ?validated <> None => destruct validated; [reflexivity | contradiction]
    end.
Qed.

Lemma init_with_key key :
  key <> "" ->
  ZestAPIClient.init (Some key) = ZestAPIClient.mk (Some (bearer_header key)).
Proof.
  intros Hk. unfold ZestAPIClient.init.
  rewrite (proj2 (truthy_true key) Hk). reflexivity.
Qed.

Lemma bearer_header_passes key r request_body :
  key <> "" ->
  API_KEY g = "" \/ API_KEY g = key ->
  Depends_verify_api_key (mkRequest r (Some (bearer_header key)) request_body)
  = Return key.
Proof.
  intros Hk Hg. unfold Depends_verify_api_key. cbn [authorization].
  rewrite (HTTPBearer_bearer_header key Hk).
  unfold verify_api_key. cbn [credentials].
  destruct Hg as [-> | ->]; [reflexivity |].
  rewrite String.eqb_refl, andb_false_r. reflexivity.
Qed.

(** X17.  A client built with a non-empty API key, in front of a gateway
    configured with that key or with none, has every call forwarded as
    one call to the backend: the GET methods to the same path, the tool
    methods as a POST to [/execute-tool] naming the tool with the
    arguments as parameters, [explore_code] to [/explore] and
    [update_config] to [/config] with the fields it sets.  An empty
    [config] or [relation_type] arrives as [null]. *)
Theorem client_call_reaches_backend client key i :
  http_client g = Some client ->
  key <> "" ->
  API_KEY g = "" \/ API_KEY g = key ->
  acceptable i ->
  exists req,
    receive (perform (ZestAPIClient.init (Some key)) i) = Some req /\
    forwarded (app req) = [backend_call i].
Proof.
  intros Hc Hk Hg Hi. rewrite (init_with_key key Hk).
  destruct i;
    try (destruct config as [[| binding more] |]);
    try (destruct relation_type as [kind |]);
    cbn -[truthy] in Hi |- *;
    try (destruct (truthy kind));
    (eexists; split; [reflexivity |]);
    match goal with
    | |- forwarded (app (mkRequest ?r ?a ?b)) = _ =>
        pose proof (bearer_header_passes key r b Hk Hg) as Hd;
        change (Some (bearer_header key)) with a in Hd
    end;
    unfold app; cbn [route]; unfold secured, secured_with_body;
    try rewrite Hd;
    cbn -[explore_code execute_tool respond tool_reply encoded proxy_request
          health_check];
    try match type of Hi with
        | ?validated <> None =>
            destruct validated as [request |] eqn:Hv; [| contradiction]
        end;
    unfold search_code, find_by_name, read_file, find_relationships,
      find_usages, get_class_info, list_tools, get_status, get_config,
      update_config;
    first
      [ rewrite (health_check_relay client Hc); reflexivity
      | rewrite (explore_code_relay client _ key Hc), encoded_mk; reflexivity
      | rewrite (tool_reply_relay client _ key Hc); reflexivity
      | unfold respond; rewrite (proxy_request_GET client _ None Hc);
        reflexivity
      | idtac ].
  unfold respond. rewrite (proxy_request_POST client "/config" _ Hc).
  cbn [forwarded calls]. do 3 f_equal.
  change (ConfigUpdateRequest.validate (JObj kwargs) = Some request) in Hv.
  unfold ConfigUpdateRequest.dict_exclude_none.
  rewrite (config_dict_of_body kwargs request Hv), exclude_none_tabulate.
  reflexivity.
Qed.

End Gateway.

(** * Startup followed by requests *)


(** X15.  Startup is idempotent: run again from the globals it left,
    against the same backend, it sends the same probes, writes the same
    log and leaves the same globals. *)
Theorem lifespan_idempotent g client :
  lifespan client (started g client) = lifespan client g.
Proof.
  unfold started, lifespan. cbn [fst PROXY_BASE_URL API_KEY].
  set (st0 := mkStartup (PROXY_BASE_URL g) false [] [(INFO, Starting)]).
  set (r := for_port client (range 8765 8776) st0).
  destruct (for_port_rebase client (range 8765 8776) st0 (base_url r))
    as [H | [H _]]; cbn [proxy_found probes log st0] in H; fold r in H;
    rewrite H; [reflexivity |].
  destruct r; reflexivity.
Qed.

(** * Concrete runs *)

(** C1, a run against the claim as worded: an authenticated, well-formed
    POST to [/execute-tool] whose backend answers 503.  The caller receives
    an HTTP 503 with a [detail], not a payload with [success = false]. *)
Lemma execute_tool_backend_503_no_error_payload :
  let client := answering (mkResponse 503 (Decodes JNull)) in
  let g := server "" client in
  let req := mkRequest POST_execute_tool (Some "Bearer token")
               (Some read_file_body) in
  let call := mkOutbound "POST" "http://localhost:8765/execute-tool"
                (Some read_file_body) in
  authenticated g req /\
  well_formed req = true /\
  send client call = Responded (mkResponse 503 (Decodes JNull)) /\
  is_success (mkResponse 503 (Decodes JNull)) = false /\
  app sample_status_text sample_construct_text g req =
    mkServed [call]
      (JSONResponse 503
         (JObj [("detail",
                 JStr "Server error for url 'http://localhost:8765/execute-tool'")]))
  /\
  ~ error_payload (reply (app sample_status_text sample_construct_text g req)).
Proof.
  cbv zeta. repeat split.
  - exists "token". reflexivity.
  - intros (status & d & message & Hr & Hs & _).
    vm_compute in Hr. injection Hr as _ <-. discriminate Hs.
Qed.

(** C3, a run against the claim as worded: with the key "secret"
    configured, [GET /health] without any credentials is served, and the
    health probe is forwarded to the backend. *)
Lemma health_served_without_token :
  let client := answering (mkResponse 200 (Decodes ok_payload)) in
  let g := server "secret" client in
  let req := mkRequest GET_health None None in
  truthy (API_KEY g) = true /\
  bearer_token req = None /\
  app sample_status_text sample_construct_text g req =
    mkServed [mkOutbound "GET" "http://localhost:8765/health" None]
      (JSONResponse 200 (healthy true ok_payload)) /\
  ~ rejected_unforwarded (app sample_status_text sample_construct_text g req).
Proof.
  cbv zeta. repeat split.
  intros [Hf _]. vm_compute in Hf. discriminate Hf.
Qed.

(** C7, a run against the claim as worded: the backend answers the call
    forwarded by [/execute-tool] with 200 and a payload of two fields; the
    caller receives the payload rebuilt by the response model, with a third
    field [error]. *)
Lemma execute_tool_payload_not_verbatim :
  let client := answering (mkResponse 200 (Decodes ok_payload)) in
  let g := server "" client in
  let req := mkRequest POST_execute_tool (Some "Bearer token")
               (Some read_file_body) in
  let call := mkOutbound "POST" "http://localhost:8765/execute-tool"
                (Some read_file_body) in
  authenticated g req /\
  well_formed req = true /\
  forwarded (app sample_status_text sample_construct_text g req) = [call] /\
  Succeeds client call ok_payload /\
  reply (app sample_status_text sample_construct_text g req) =
    JSONResponse 200
      (JObj [("success", JBool true); ("content", JStr "ok"); ("error", JNull)])
  /\
  reply (app sample_status_text sample_construct_text g req) <>
    JSONResponse 200 ok_payload.
Proof.
  cbv zeta. repeat split.
  - exists "token". reflexivity.
  - exists (mkResponse 200 (Decodes ok_payload)). repeat split.
  - vm_compute. discriminate.
Qed.

(** [missing_header_rejected] at [GET /tools] with no key configured and no
    [Authorization] header, as the test client sends it. *)
Lemma missing_header_rejected_run :
  let g := server "" (answering (mkResponse 200 (Decodes ok_payload))) in
  let req := mkRequest GET_tools None None in
  protected (route req) = true /\
  authorization req = None /\
  API_KEY g = "" /\
  app sample_status_text sample_construct_text g req =
    mkServed [] (JSONResponse 403 (JObj [("detail", JStr "Not authenticated")])).
Proof.
  cbv zeta. split; [reflexivity | split; [reflexivity | split; [reflexivity |]]].
  apply (missing_header_rejected sample_status_text sample_construct_text
           (server "" (answering (mkResponse 200 (Decodes ok_payload))))
           (mkRequest GET_tools None None)); reflexivity.
Defined.

(** [wrong_token_rejected_before_forwarding] at [POST /search] with the key
    "secret" and the token "wrong". *)
Lemma wrong_token_rejected_run :
  let g := server "secret" (answering (mkResponse 200 (Decodes ok_payload))) in
  let req := mkRequest POST_search (Some "Bearer wrong")
               (Some (JObj [("query", JStr "main method")])) in
  truthy (API_KEY g) = true /\
  protected (route req) = true /\
  bearer_token req <> Some (API_KEY g) /\
  rejected_unforwarded (app sample_status_text sample_construct_text g req).
Proof.
  cbv zeta.
  assert (Ht : bearer_token
                 (mkRequest POST_search (Some "Bearer wrong")
                    (Some (JObj [("query", JStr "main method")])))
               <> Some "secret")
    by (vm_compute; discriminate).
  split; [reflexivity | split; [reflexivity | split; [exact Ht |]]].
  apply (wrong_token_rejected_before_forwarding sample_status_text
           sample_construct_text
           (server "secret" (answering (mkResponse 200 (Decodes ok_payload))))
           (mkRequest POST_search (Some "Bearer wrong")
              (Some (JObj [("query", JStr "main method")])))
           eq_refl eq_refl Ht).
Defined.

(** [health_skips_authentication] with the key "secret" configured. *)
Lemma health_skips_authentication_run :
  let client := answering (mkResponse 200 (Decodes ok_payload)) in
  let g := server "secret" client in
  let req := mkRequest GET_health None None in
  http_client g = Some client /\
  truthy (API_KEY g) = true /\
  Depends_verify_api_key g req = Raise (HTTPException 403 "Not authenticated") /\
  forwarded (app sample_status_text sample_construct_text g req) =
    [mkOutbound "GET" "http://localhost:8765/health" None].
Proof.
  cbv zeta. split; [reflexivity | split; [reflexivity |]].
  destruct (health_skips_authentication sample_status_text
              sample_construct_text
              (server "secret" (answering (mkResponse 200 (Decodes ok_payload))))
              (answering (mkResponse 200 (Decodes ok_payload))) None eq_refl)
    as (Hd & _ & Hf).
  split; [exact Hd | exact Hf].
Defined.

(** [health_degraded_or_connected] with no backend listening. *)
Lemma health_degraded_run :
  let g := server "" unreachable in
  let req := mkRequest GET_health None None in
  route req = GET_health /\
  http_client g = Some unreachable /\
  send unreachable (health_call g) =
    TransportError "All connection attempts failed" /\
  app sample_status_text sample_construct_text g req =
    mkServed [mkOutbound "GET" "http://localhost:8765/health" None]
      (JSONResponse 200
         (JObj [("status", JStr "healthy"); ("proxy_connected", JBool false);
                ("proxy_info", JNull)])).
Proof.
  cbv zeta. split; [reflexivity | split; [reflexivity | split; [reflexivity |]]].
  destruct (health_degraded_or_connected sample_status_text
              sample_construct_text (server "" unreachable) unreachable
              (mkRequest GET_health None None) eq_refl eq_refl)
    as (Hdown & _ & _).
  exact (Hdown "All connection attempts failed" eq_refl).
Defined.

(** [backend_failure_is_http_error] at [/execute-tool] with a backend that
    answers 503. *)
Lemma backend_failure_is_http_error_run :
  let client := answering (mkResponse 503 (Decodes JNull)) in
  let g := server "" client in
  let req := mkRequest POST_execute_tool (Some "Bearer token")
               (Some read_file_body) in
  (route req = POST_explore \/ route req = POST_execute_tool) /\
  http_client g = Some client /\
  authenticated g req /\
  well_formed req = true /\
  exists call,
    forwarded (app sample_status_text sample_construct_text g req) = [call] /\
    out_method call = "POST" /\
    reply (app sample_status_text sample_construct_text g req) <>
      InternalServerError /\
    forall status detail,
      Fails sample_status_text client call status detail ->
      reply (app sample_status_text sample_construct_text g req) =
        JSONResponse status (JObj [("detail", JStr detail)]).
Proof.
  cbv zeta.
  assert (Ha : authenticated
                 (server "" (answering (mkResponse 503 (Decodes JNull))))
                 (mkRequest POST_execute_tool (Some "Bearer token")
                    (Some read_file_body)))
    by (exists "token"; reflexivity).
  split; [right; reflexivity | split; [reflexivity | split; [exact Ha |]]].
  split; [reflexivity |].
  apply (backend_failure_is_http_error sample_status_text
           sample_construct_text
           (server "" (answering (mkResponse 503 (Decodes JNull))))
           (answering (mkResponse 503 (Decodes JNull)))
           (mkRequest POST_execute_tool (Some "Bearer token")
              (Some read_file_body))
           (or_intror eq_refl) eq_refl Ha eq_refl).
Defined.

(** [passthrough_returns_payload] at [GET /tools]. *)
Lemma passthrough_returns_payload_run :
  let client := answering (mkResponse 200 (Decodes ok_payload)) in
  let g := server "secret" client in
  let req := mkRequest GET_tools (Some "Bearer secret") None in
  passthrough (route req) = true /\
  http_client g = Some client /\
  authenticated g req /\
  well_formed req = true /\
  exists call,
    forwarded (app sample_status_text sample_construct_text g req) = [call] /\
    forall payload,
      Succeeds client call payload ->
      reply (app sample_status_text sample_construct_text g req) =
        JSONResponse 200 payload.
Proof.
  cbv zeta.
  assert (Ha : authenticated
                 (server "secret"
                    (answering (mkResponse 200 (Decodes ok_payload))))
                 (mkRequest GET_tools (Some "Bearer secret") None))
    by (exists "secret"; reflexivity).
  split; [reflexivity | split; [reflexivity | split; [exact Ha |]]].
  split; [reflexivity |].
  apply (passthrough_returns_payload sample_status_text sample_construct_text
           (server "secret" (answering (mkResponse 200 (Decodes ok_payload))))
           (answering (mkResponse 200 (Decodes ok_payload)))
           (mkRequest GET_tools (Some "Bearer secret") None)
           eq_refl eq_refl Ha eq_refl).
Defined.

(** [convenience_route_is_execute_tool] at the [/search] request of the
    test client. *)
Lemma convenience_route_is_execute_tool_run :
  let g := server "" (answering (mkResponse 200 (Decodes ok_payload))) in
  let req := mkRequest POST_search (Some "Bearer token")
               (Some (JObj [("query", JStr "main method");
                            ("max_results", JInt 3)])) in
  let fields := [("query", JStr "main method"); ("max_results", JInt 3)] in
  convenience_tool (route req) = Some "search_code" /\
  request_fields req = Some fields /\
  app sample_status_text sample_construct_text g req =
  app sample_status_text sample_construct_text g
    (mkRequest POST_execute_tool (Some "Bearer token")
       (Some (JObj [("tool", JStr "search_code");
                    ("parameters", JObj fields)]))).
Proof.
  cbv zeta. split; [reflexivity | split; [reflexivity |]].
  apply (convenience_route_is_execute_tool sample_status_text
           sample_construct_text
           (server "" (answering (mkResponse 200 (Decodes ok_payload))))
           (mkRequest POST_search (Some "Bearer token")
              (Some (JObj [("query", JStr "main method");
                           ("max_results", JInt 3)])))
           "search_code"
           [("query", JStr "main method"); ("max_results", JInt 3)]
           eq_refl eq_refl).
Defined.

(** [omitted_fields_forwarded_as_defaults] at a [/search] body that gives
    the query only. *)
Lemma omitted_fields_forwarded_as_defaults_run :
  let client := answering (mkResponse 200 (Decodes ok_payload)) in
  let g := server "" client in
  let d := [("query", JStr "main method")] in
  let req := mkRequest POST_search (Some "Bearer token") (Some (JObj d)) in
  http_client g = Some client /\
  authenticated g req /\
  body req = Some (JObj d) /\
  route req = POST_search /\
  dict_get "query" d = Some (JStr "main method") /\
  dict_get "max_results" d = None /\
  forwarded (app sample_status_text sample_construct_text g req) =
    [mkOutbound "POST" "http://localhost:8765/execute-tool"
       (Some (JObj [("tool", JStr "search_code");
                    ("parameters",
                     JObj [("query", JStr "main method");
                           ("max_results", JInt 10)])]))].
Proof.
  cbv zeta.
  assert (Ha : authenticated
                 (server "" (answering (mkResponse 200 (Decodes ok_payload))))
                 (mkRequest POST_search (Some "Bearer token")
                    (Some (JObj [("query", JStr "main method")]))))
    by (exists "token"; reflexivity).
  split; [reflexivity | split; [exact Ha |]].
  split; [reflexivity | split; [reflexivity |]].
  split; [reflexivity | split; [reflexivity |]].
  destruct (omitted_fields_forwarded_as_defaults sample_status_text
              sample_construct_text
              (server "" (answering (mkResponse 200 (Decodes ok_payload))))
              (answering (mkResponse 200 (Decodes ok_payload)))
              (mkRequest POST_search (Some "Bearer token")
                 (Some (JObj [("query", JStr "main method")])))
              [("query", JStr "main method")] eq_refl Ha eq_refl)
    as [Hsearch _].
  exact (proj2 (Hsearch "main method" eq_refl eq_refl eq_refl)).
Defined.

(** [update_config_forwards_set_fields] at a body that sets one field and
    gives another as [null]. *)
Lemma update_config_forwards_set_fields_run :
  let client := answering (mkResponse 200 (Decodes ok_payload)) in
  let g := server "" client in
  let d := [("max_rounds", JInt 5); ("include_tests", JNull)] in
  let req := mkRequest POST_config (Some "Bearer token") (Some (JObj d)) in
  let request := ConfigUpdateRequest.mk None (Some 5) None None None in
  route req = POST_config /\
  http_client g = Some client /\
  authenticated g req /\
  body req = Some (JObj d) /\
  ConfigUpdateRequest.validate (JObj d) = Some request /\
  exists sent,
    forwarded (app sample_status_text sample_construct_text g req) =
    [mkOutbound "POST" (PROXY_BASE_URL g ++ "/config") (Some (JObj sent))] /\
    (forall key value,
        dict_get key sent = Some value <->
        dict_get key (ConfigUpdateRequest.dict request) = Some value /\
        value <> JNull) /\
    (forall key value,
        dict_get key sent = Some value <->
        In key config_fields /\ dict_get key d = Some value /\ value <> JNull).
Proof.
  cbv zeta.
  assert (Ha : authenticated
                 (server "" (answering (mkResponse 200 (Decodes ok_payload))))
                 (mkRequest POST_config (Some "Bearer token")
                    (Some (JObj [("max_rounds", JInt 5);
                                 ("include_tests", JNull)]))))
    by (exists "token"; reflexivity).
  split; [reflexivity | split; [reflexivity | split; [exact Ha |]]].
  split; [reflexivity | split; [reflexivity |]].
  apply (update_config_forwards_set_fields sample_status_text
           sample_construct_text
           (server "" (answering (mkResponse 200 (Decodes ok_payload))))
           (answering (mkResponse 200 (Decodes ok_payload)))
           (mkRequest POST_config (Some "Bearer token")
              (Some (JObj [("max_rounds", JInt 5); ("include_tests", JNull)])))
           [("max_rounds", JInt 5); ("include_tests", JNull)]
           (ConfigUpdateRequest.mk None (Some 5) None None None)
           eq_refl eq_refl Ha eq_refl eq_refl).
Defined.

(** The body forwarded in that run holds the one field that was set. *)
Example update_config_run_forwards_one_field :
  forwarded
    (app sample_status_text sample_construct_text
       (server "" (answering (mkResponse 200 (Decodes ok_payload))))
       (mkRequest POST_config (Some "Bearer token")
          (Some (JObj [("max_rounds", JInt 5); ("include_tests", JNull)])))) =
  [mkOutbound "POST" "http://localhost:8765/config"
     (Some (JObj [("max_rounds", JInt 5)]))].
Proof. reflexivity. Qed.

(** Startup with the agent proxy on port 8767: three probes, in order, and
    the base URL of that port. *)
Example lifespan_finds_port_8767 :
  lifespan (proxy_on 8767) (mkGlobals "http://localhost:8765" "" None) =
  (mkGlobals "http://localhost:8767" "" (Some (proxy_on 8767)),
   [mkOutbound "GET" "http://localhost:8765/health" None;
    mkOutbound "GET" "http://localhost:8766/health" None;
    mkOutbound "GET" "http://localhost:8767/health" None],
   [(INFO, Starting); (INFO, FoundProxyOnPort 8767);
    (INFO, Project (Some (JStr "zest")))]).
Proof. vm_compute. reflexivity. Qed.

(** Startup with nothing listening: eleven probes, the configured base URL,
    a warning. *)
Example lifespan_without_proxy :
  let '(started, sent, written) :=
    lifespan unreachable (mkGlobals "http://localhost:8765" "" None) in
  PROXY_BASE_URL started = "http://localhost:8765" /\
  http_client started = Some unreachable /\
  map out_url sent =
    map (fun port => localhost port ++ "/health") (range 8765 8776) /\
  length sent = 11%nat /\
  written = [(INFO, Starting); (WARNING, NoProxyFound)].
Proof. vm_compute. repeat split. Qed.

(** [GET /health] with the agent proxy answering: connected, with the
    backend's health payload as [proxy_info]. *)
Example health_connected_run :
  app sample_status_text sample_construct_text
    (server "" (proxy_on 8765)) (mkRequest GET_health None None) =
  mkServed [mkOutbound "GET" "http://localhost:8765/health" None]
    (JSONResponse 200
       (JObj [("status", JStr "healthy"); ("proxy_connected", JBool true);
              ("proxy_info",
               JObj [("service", JStr "agent-proxy");
                     ("project", JStr "zest")])])).
Proof. reflexivity. Qed.

(** * Concrete runs of the further properties *)

(** [proxy_request_unsupported_method] at the method PUT. *)
Lemma proxy_request_unsupported_method_run :
  let g := server "" unreachable in
  http_client g = Some unreachable /\
  "PUT" <> "GET" /\
  "PUT" <> "POST" /\
  proxy_request sample_status_text g "/tools" "PUT" None =
    mkAwait []
      (Raise (HTTPException 500
                "Proxy request failed: Unsupported method: PUT")).
Proof.
  cbv zeta.
  assert (Hg : "PUT" <> "GET") by discriminate.
  assert (Hp : "PUT" <> "POST") by discriminate.
  split; [reflexivity | split; [exact Hg | split; [exact Hp |]]].
  exact (proxy_request_unsupported_method sample_status_text
           (server "" unreachable) unreachable "/tools" "PUT" None
           eq_refl Hg Hp).
Defined.

(** [before_startup_nothing_forwarded] at [GET /tools] with a token. *)
Lemma before_startup_nothing_forwarded_run :
  let g := mkGlobals "http://localhost:8765" "" None in
  let req := mkRequest GET_tools (Some "Bearer token") None in
  http_client g = None /\
  protected (route req) = true /\
  authenticated g req /\
  well_formed req = true /\
  forwarded (app sample_status_text sample_construct_text g req) = [] /\
  reply (app sample_status_text sample_construct_text g req) =
    JSONResponse 500 (JObj [("detail", JStr "HTTP client not initialized")]).
Proof.
  cbv zeta.
  assert (Ha : authenticated (mkGlobals "http://localhost:8765" "" None)
                 (mkRequest GET_tools (Some "Bearer token") None))
    by (exists "token"; reflexivity).
  destruct (before_startup_nothing_forwarded sample_status_text
              sample_construct_text (mkGlobals "http://localhost:8765" "" None)
              (mkRequest GET_tools (Some "Bearer token") None) eq_refl)
    as (Hf & _ & Hr).
  split; [reflexivity | split; [reflexivity | split; [exact Ha |]]].
  split; [reflexivity | split; [exact Hf | exact (Hr eq_refl Ha eq_refl)]].
Defined.

(** [bearer_header_accepted] with the key "secret". *)
Lemma bearer_header_accepted_run :
  let g := server "secret" unreachable in
  let req := mkRequest GET_tools (Some (bearer_header "secret")) None in
  "secret" <> "" /\
  authorization req = Some (bearer_header "secret") /\
  (API_KEY g = "" \/ API_KEY g = "secret") /\
  Depends_verify_api_key g req = Return "secret".
Proof.
  cbv zeta.
  assert (Hk : "secret" <> "") by discriminate.
  split; [exact Hk | split; [reflexivity | split; [right; reflexivity |]]].
  exact (bearer_header_accepted (server "secret" unreachable)
           (mkRequest GET_tools (Some (bearer_header "secret")) None)
           "secret" Hk eq_refl (or_intror eq_refl)).
Defined.

(** [tool_routes_post_to_execute_tool] at [/read-file]. *)
Lemma tool_routes_post_to_execute_tool_run :
  let client := answering (mkResponse 200 (Decodes ok_payload)) in
  let g := server "" client in
  let req := mkRequest POST_read_file (Some "Bearer token")
               (Some (JObj [("file_path", JStr "Main.java")])) in
  let request := ExecuteToolRequest.mk "read_file"
                   [("file_path", JStr "Main.java")] in
  http_client g = Some client /\
  Depends_verify_api_key g req = Return "token" /\
  tool_request req = Some request /\
  forwarded (app sample_status_text sample_construct_text g req) =
    [mkOutbound "POST" "http://localhost:8765/execute-tool"
       (Some read_file_body)].
Proof.
  cbv zeta. split; [reflexivity | split; [reflexivity | split; [reflexivity |]]].
  exact (tool_routes_post_to_execute_tool sample_status_text
           sample_construct_text
           (server "" (answering (mkResponse 200 (Decodes ok_payload))))
           (answering (mkResponse 200 (Decodes ok_payload)))
           (mkRequest POST_read_file (Some "Bearer token")
              (Some (JObj [("file_path", JStr "Main.java")])))
           "token"
           (ExecuteToolRequest.mk "read_file" [("file_path", JStr "Main.java")])
           eq_refl eq_refl eq_refl).
Defined.


(** [tool_payload_normalised] with a payload that holds a key the model
    does not declare. *)
Lemma tool_payload_normalised_run :
  let d := [("success", JBool true); ("content", JStr "ok");
            ("elapsed_ms", JInt 12)] in
  let client := answering (mkResponse 200 (Decodes (JObj d))) in
  let g := server "" client in
  let req := mkRequest POST_execute_tool (Some "Bearer token")
               (Some read_file_body) in
  let request := ExecuteToolRequest.mk "read_file"
                   [("file_path", JStr "Main.java")] in
  http_client g = Some client /\
  Depends_verify_api_key g req = Return "token" /\
  tool_request req = Some request /\
  Succeeds client (execute_tool_call g request) (JObj d) /\
  dict_get "success" d = Some (JBool true) /\
  dict_get "content" d = Some (JStr "ok") /\
  dict_get "error" d = None /\
  reply (app sample_status_text sample_construct_text g req) =
    JSONResponse 200
      (JObj [("success", JBool true); ("content", JStr "ok");
             ("error", JNull)]).
Proof.
  cbv zeta.
  set (d := [("success", JBool true); ("content", JStr "ok");
             ("elapsed_ms", JInt 12)]).
  assert (Hs : Succeeds (answering (mkResponse 200 (Decodes (JObj d))))
                 (execute_tool_call
                    (server "" (answering (mkResponse 200 (Decodes (JObj d)))))
                    (ExecuteToolRequest.mk "read_file"
                       [("file_path", JStr "Main.java")]))
                 (JObj d))
    by (exists (mkResponse 200 (Decodes (JObj d))); repeat split).
  split; [reflexivity | split; [reflexivity | split; [reflexivity |]]].
  split; [exact Hs | split; [reflexivity | split; [reflexivity |]]].
  split; [reflexivity |].
  exact (tool_payload_normalised sample_status_text sample_construct_text
           (server "" (answering (mkResponse 200 (Decodes (JObj d)))))
           (answering (mkResponse 200 (Decodes (JObj d))))
           (mkRequest POST_execute_tool (Some "Bearer token")
              (Some read_file_body))
           "token"
           (ExecuteToolRequest.mk "read_file" [("file_path", JStr "Main.java")])
           d true "ok" eq_refl eq_refl eq_refl Hs eq_refl eq_refl
           (or_introl eq_refl)).
Defined.

(** [invalid_body_unprocessable] at a [/search] body without [query]. *)
Lemma invalid_body_unprocessable_run :
  let g := server "" unreachable in
  let d := [("max_results", JInt 3)] in
  let req := mkRequest POST_search (Some "Bearer token") (Some (JObj d)) in
  authenticated g req /\
  takes_body (route req) = true /\
  body req = Some (JObj d) /\
  In "query" (required_fields (route req)) /\
  dict_get "query" d = None /\
  app sample_status_text sample_construct_text g req =
    mkServed [] ValidationErrorResponse.
Proof.
  cbv zeta.
  assert (Ha : authenticated (server "" unreachable)
                 (mkRequest POST_search (Some "Bearer token")
                    (Some (JObj [("max_results", JInt 3)]))))
    by (exists "token"; reflexivity).
  assert (Hin : In "query" (required_fields POST_search))
    by (left; reflexivity).
  split; [exact Ha | split; [reflexivity | split; [reflexivity |]]].
  split; [exact Hin | split; [reflexivity |]].
  apply (invalid_body_unprocessable sample_status_text sample_construct_text
           (server "" unreachable)
           (mkRequest POST_search (Some "Bearer token")
              (Some (JObj [("max_results", JInt 3)])))
           Ha eq_refl).
  right. right. exists [("max_results", JInt 3)], "query".
  split; [reflexivity | split; [exact Hin | reflexivity]].
Defined.

(** [update_config_body_in_declaration_order] at a body that gives two
    fields in reverse order and a key the model does not declare. *)
Lemma update_config_body_in_declaration_order_run :
  let client := answering (mkResponse 200 (Decodes ok_payload)) in
  let g := server "" client in
  let d := [("timeout_seconds", JInt 30); ("verbose", JBool true);
            ("max_rounds", JInt 5)] in
  let req := mkRequest POST_config (Some "Bearer token") (Some (JObj d)) in
  let request := ConfigUpdateRequest.mk None (Some 5) None None (Some 30) in
  route req = POST_config /\
  http_client g = Some client /\
  authenticated g req /\
  body req = Some (JObj d) /\
  ConfigUpdateRequest.validate (JObj d) = Some request /\
  flat_map (set_in d) config_fields =
    [("max_rounds", JInt 5); ("timeout_seconds", JInt 30)] /\
  forwarded (app sample_status_text sample_construct_text g req) =
    [mkOutbound "POST" (PROXY_BASE_URL g ++ "/config")
       (Some (JObj (flat_map (set_in d) config_fields)))].
Proof.
  cbv zeta.
  set (d := [("timeout_seconds", JInt 30); ("verbose", JBool true);
             ("max_rounds", JInt 5)]).
  assert (Ha : authenticated
                 (server "" (answering (mkResponse 200 (Decodes ok_payload))))
                 (mkRequest POST_config (Some "Bearer token") (Some (JObj d))))
    by (exists "token"; reflexivity).
  split; [reflexivity | split; [reflexivity | split; [exact Ha |]]].
  split; [reflexivity | split; [reflexivity | split; [reflexivity |]]].
  exact (update_config_body_in_declaration_order sample_status_text
           sample_construct_text
           (server "" (answering (mkResponse 200 (Decodes ok_payload))))
           (answering (mkResponse 200 (Decodes ok_payload)))
           (mkRequest POST_config (Some "Bearer token") (Some (JObj d)))
           d (ConfigUpdateRequest.mk None (Some 5) None None (Some 30))
           eq_refl eq_refl Ha eq_refl eq_refl).
Defined.

(** [backend_failure_relayed_on_other_routes] at [GET /status]. *)
Lemma backend_failure_relayed_on_other_routes_run :
  let client := answering (mkResponse 503 (Decodes JNull)) in
  let g := server "" client in
  let req := mkRequest GET_status (Some "Bearer token") None in
  (passthrough (route req) = true \/ convenience_tool (route req) <> None) /\
  http_client g = Some client /\
  authenticated g req /\
  well_formed req = true /\
  exists call,
    forwarded (app sample_status_text sample_construct_text g req) = [call] /\
    forall status detail,
      Fails sample_status_text client call status detail ->
      reply (app sample_status_text sample_construct_text g req) =
        JSONResponse status (JObj [("detail", JStr detail)]).
Proof.
  cbv zeta.
  assert (Ha : authenticated
                 (server "" (answering (mkResponse 503 (Decodes JNull))))
                 (mkRequest GET_status (Some "Bearer token") None))
    by (exists "token"; reflexivity).
  split; [left; reflexivity | split; [reflexivity | split; [exact Ha |]]].
  split; [reflexivity |].
  exact (backend_failure_relayed_on_other_routes sample_status_text
           sample_construct_text
           (server "" (answering (mkResponse 503 (Decodes JNull))))
           (answering (mkResponse 503 (Decodes JNull)))
           (mkRequest GET_status (Some "Bearer token") None)
           (or_introl eq_refl) eq_refl Ha eq_refl).
Defined.


(** [client_calls_are_well_formed] at [find_relationships] with an empty
    relation type, from a client without API key. *)
Lemma client_calls_are_well_formed_run :
  let self := ZestAPIClient.init None in
  let i := Invoke.find_relationships "com.example.Main" (Some "") in
  acceptable i /\
  exists req,
    receive (perform self i) = Some req /\
    authorization req = ZestAPIClient.authorization_header self /\
    well_formed req = true.
Proof.
  cbv zeta. split; [exact I |].
  exact (client_calls_are_well_formed (ZestAPIClient.init None)
           (Invoke.find_relationships "com.example.Main" (Some "")) I).
Defined.

(** [client_call_reaches_backend] at [search_code] with the key
    "secret". *)
Lemma client_call_reaches_backend_run :
  let client := answering (mkResponse 200 (Decodes ok_payload)) in
  let g := server "secret" client in
  let i := Invoke.search_code "main method" 3 in
  http_client g = Some client /\
  "secret" <> "" /\
  (API_KEY g = "" \/ API_KEY g = "secret") /\
  acceptable i /\
  backend_call g i =
    mkOutbound "POST" "http://localhost:8765/execute-tool"
      (Some (JObj [("tool", JStr "search_code");
                   ("parameters",
                    JObj [("query", JStr "main method");
                          ("max_results", JInt 3)])])) /\
  exists req,
    receive (perform (ZestAPIClient.init (Some "secret")) i) = Some req /\
    forwarded (app sample_status_text sample_construct_text g req) =
      [backend_call g i].
Proof.
  cbv zeta.
  assert (Hk : "secret" <> "") by discriminate.
  split; [reflexivity | split; [exact Hk | split; [right; reflexivity |]]].
  split; [exact I | split; [reflexivity |]].
  exact (client_call_reaches_backend sample_status_text sample_construct_text
           (server "secret" (answering (mkResponse 200 (Decodes ok_payload))))
           (answering (mkResponse 200 (Decodes ok_payload)))
           "secret" (Invoke.search_code "main method" 3)
           eq_refl Hk (or_intror eq_refl) I).
Defined.
